(** * Cosmica: the credit ledger and the instance-provisioning workflow

    A shallow embedding of the gift-card redemption route, the instance
    purchase route, the [Database] statements they issue and the cached
    [PterodactylAPI.getUserServers] call, followed by the properties of
    the specification that concern them.

    Conventions.
    - SQLite [INTEGER] columns are [Z], a value outside the 64-bit range
      standing for the real that SQLite keeps once a counter overflows;
      [REAL] columns and JavaScript numbers holding credit amounts are
      IEEE-754 binary64 values ([float]); [TEXT] columns are [string].
    - Built-ins of JavaScript that depend on Unicode or on a parser
      ([toUpperCase], [JSON.parse], [parseInt]) are operations of a
      [Js.Runtime].
    - A table with an [INTEGER PRIMARY KEY] is a [gmap] from the key to the
      remaining columns; append-only tables that are only counted are lists.
    - An [async] route handler is a tree of awaited calls ([Prog]); every
      [await] is a point where another request may run. *)

From Stdlib Require Import ZArith String Ascii Bool Floats.
From stdpp Require Import gmap strings list fin_maps.

Local Open Scope string_scope.
Local Open Scope list_scope.
Local Open Scope Z_scope.

(** ** JavaScript primitives used by the routes *)

Module Js.

(** Truthiness of an integer column value ([!row.enabled]). *)
Definition truthy (z : Z) : bool := negb (z =? 0).

(** Truthiness of a (nullable) string: [null] and [''] are falsy. *)
Definition truthy_str (s : option string) : bool :=
  match s with
  | Some (String _ _) => true
  | _ => false
  end.

Definition is_nan (x : float) : bool := negb (PrimFloat.eqb x x).

(** [x || 0] on a number: [0], [-0] and [NaN] are falsy. *)
Definition or_zero (x : float) : float :=
  if PrimFloat.eqb x 0%float || is_nan x then 0%float else x.

(** Upper case of a text of ASCII characters: [a]-[z] become [A]-[Z] and
    every other character is kept. *)
Definition upper_ascii (c : ascii) : ascii :=
  let n := nat_of_ascii c in
  if ((97 <=? n)%nat && (n <=? 122)%nat)%bool then ascii_of_nat (n - 32) else c.

Fixpoint upper_ascii_text (s : string) : string :=
  match s with
  | EmptyString => EmptyString
  | String c r => String (upper_ascii c) (upper_ascii_text r)
  end.

Fixpoint is_ascii_text (s : string) : bool :=
  match s with
  | EmptyString => true
  | String c r => (nat_of_ascii c <? 128)%nat && is_ascii_text r
  end.

(** White space removed by [String.prototype.trim] (ASCII part). *)
Definition is_ws (c : ascii) : bool :=
  let n := nat_of_ascii c in
  ((n =? 32)%nat || ((9 <=? n)%nat && (n <=? 13)%nat))%bool.

Fixpoint trimStart (s : string) : string :=
  match s with
  | EmptyString => EmptyString
  | String c r => if is_ws c then trimStart r else s
  end.

Fixpoint trimEnd (s : string) : string :=
  match s with
  | EmptyString => EmptyString
  | String c r =>
      match trimEnd r with
      | EmptyString => if is_ws c then EmptyString else String c EmptyString
      | t => String c t
      end
  end.

Definition trim (s : string) : string := trimEnd (trimStart s).

(** [s.split(',')]. *)
Fixpoint split_comma (s : string) : list string :=
  match s with
  | EmptyString => [EmptyString]
  | String c r =>
      if Ascii.eqb c ","%char then EmptyString :: split_comma r
      else match split_comma r with
           | [] => [String c EmptyString]
           | h :: t => String c h :: t
           end
  end.

(** The built-ins that are not re-implemented here.  [JSON_parses s] tells
    whether [JSON.parse(s)] returns (rather than throws a [SyntaxError]);
    [parseInt s] is [None] when the result is [NaN]; [toUpperCase s] is
    [String.prototype.toUpperCase], which follows the Unicode case mappings
    (a text may grow, as the sharp s becomes [SS]) and of which only the
    behaviour on texts of ASCII characters is fixed here. *)
Class Runtime := {
  JSON_parses : string -> bool;
  parseInt : string -> option Z;
  toUpperCase : string -> string;
  toUpperCase_ascii :
    forall s, is_ascii_text s = true -> toUpperCase s = upper_ascii_text s
}.

(** A value handed to the panel as [environment]: the empty object literal
    [{}] or the value denoted by a JSON text that parsed. *)
Inductive Value :=
| EmptyObject
| Parsed (src : string).

End Js.

(** ** The persistent store ([class Database]) *)

Module Database.

(** [expires_at DATETIME]: [NULL] (or an empty text), a text that
    [new Date(...)] cannot read (an invalid date), or a point in time in
    milliseconds. *)
Inductive Expiry :=
| NoExpiry
| InvalidDate
| ExpiresAt (t : Z).

(** Row of [users] (columns the two routes read or write). *)
Record User := {
  u_email : string;
  u_credits : float;
  u_pterodactyl_id : option Z
}.

(** Row of [gift_cards]. *)
Record GiftCard := {
  gc_code : string;
  gc_credits : float;
  gc_max_uses : Z;
  gc_uses : Z;
  gc_per_user_limit : Z;
  gc_enabled : Z;
  gc_expires_at : Expiry
}.

(** Row of [gift_card_redemptions]. *)
Record Redemption := {
  r_user_id : Z;
  r_gift_card_id : Z;
  r_credits_received : float
}.

(** Row of [server_plans]. *)
Record Plan := {
  p_price : float;
  p_cpu : Z;
  p_ram : Z;
  p_disk : Z;
  p_swap : Z;
  p_io : Z;
  p_databases : Z;
  p_backups : Z;
  p_allocations : Z;
  p_egg_id : Z;
  p_location_ids : string;
  p_docker_image : option string;
  p_startup_command : option string;
  p_environment_variables : option string;
  p_user_limit : Z;
  p_stock_limit : Z;
  p_stock_used : Z;
  p_enabled : Z
}.

(** Row of [user_servers]. *)
Record UserServer := {
  us_user_id : Z;
  us_plan_id : Z;
  us_pterodactyl_server_id : Z;
  us_server_name : string;
  us_server_identifier : string;
  us_status : string
}.

Record Db := {
  users : gmap Z User;
  gift_cards : gmap Z GiftCard;
  gift_card_redemptions : list Redemption;
  server_plans : gmap Z Plan;
  user_servers : list UserServer
}.

(** [SELECT * FROM users WHERE id = ?] *)
Definition getUserById (id : Z) (db : Db) : option User := users db !! id.

(** [SELECT * FROM gift_cards WHERE code = ?]: the row and its [id].  The
    column is [UNIQUE], so at most one row carries the code. *)
Definition getGiftCard (code : string) (db : Db) : option (Z * GiftCard) :=
  snd <$> list_find (fun row => gc_code (snd row) = code)
                    (map_to_list (gift_cards db)).

(** [UPDATE users SET credits = credits + ? WHERE id = ?] *)
Definition updateUserCredits (id : Z) (credits : float) (db : Db) : Db :=
  {| users := alter (fun u => {| u_email := u_email u;
                                 u_credits := PrimFloat.add (u_credits u) credits;
                                 u_pterodactyl_id := u_pterodactyl_id u |})
                    id (users db);
     gift_cards := gift_cards db;
     gift_card_redemptions := gift_card_redemptions db;
     server_plans := server_plans db;
     user_servers := user_servers db |}.

(** SQLite keeps an [INTEGER] in 64 bits.  When [v + 1] or [v - 1] leaves
    that range the statement does not fail: the result is computed in
    floating point and the column holds a [REAL] from then on.  The reals
    outside the 64-bit range are more than a thousand apart, so adding or
    subtracting one gives the same real again: the largest integer is
    followed by the real [2^63], and the counter stops there.  A column
    value within the 64-bit range is an [INTEGER]; a value outside is the
    (integral) real it denotes. *)
Definition int64_max : Z := 9223372036854775807.
Definition int64_min : Z := -9223372036854775808.

Definition is_int64 (v : Z) : bool := (int64_min <=? v) && (v <=? int64_max).

(** [v + 1] *)
Definition sqlite_add1 (v : Z) : Z := if is_int64 v then v + 1 else v.

(** [v - 1] *)
Definition sqlite_sub1 (v : Z) : Z :=
  if is_int64 v && negb (v =? int64_min) then v - 1 else v.

Definition bump_uses (c : GiftCard) : GiftCard :=
  {| gc_code := gc_code c; gc_credits := gc_credits c;
     gc_max_uses := gc_max_uses c; gc_uses := sqlite_add1 (gc_uses c);
     gc_per_user_limit := gc_per_user_limit c; gc_enabled := gc_enabled c;
     gc_expires_at := gc_expires_at c |}.

(** [UPDATE gift_cards SET uses = uses + 1 WHERE id = ?] *)
Definition incrementGiftCardUses (id : Z) (db : Db) : Db :=
  {| users := users db;
     gift_cards := alter bump_uses id (gift_cards db);
     gift_card_redemptions := gift_card_redemptions db;
     server_plans := server_plans db;
     user_servers := user_servers db |}.

Definition redemption_of (userId giftCardId : Z) (r : Redemption) : bool :=
  (r_user_id r =? userId) && (r_gift_card_id r =? giftCardId).

(** [SELECT COUNT( * ) FROM gift_card_redemptions WHERE user_id = ? AND
    gift_card_id = ?] *)
Definition getUserRedemptions (userId giftCardId : Z) (db : Db) : Z :=
  Z.of_nat (length (List.filter (redemption_of userId giftCardId)
                                (gift_card_redemptions db))).

(** [INSERT INTO gift_card_redemptions (user_id, gift_card_id,
    credits_received) VALUES (?, ?, ?)] *)
Definition redeemGiftCard (userId giftCardId : Z) (credits : float) (db : Db) : Db :=
  {| users := users db;
     gift_cards := gift_cards db;
     gift_card_redemptions :=
       gift_card_redemptions db ++
       [{| r_user_id := userId; r_gift_card_id := giftCardId;
           r_credits_received := credits |}];
     server_plans := server_plans db;
     user_servers := user_servers db |}.

(** [SELECT * FROM server_plans WHERE id = ?] *)
Definition getPlanById (id : Z) (db : Db) : option Plan := server_plans db !! id.

Definition set_stock_used (n : Z) (p : Plan) : Plan :=
  {| p_price := p_price p; p_cpu := p_cpu p; p_ram := p_ram p;
     p_disk := p_disk p; p_swap := p_swap p; p_io := p_io p;
     p_databases := p_databases p; p_backups := p_backups p;
     p_allocations := p_allocations p; p_egg_id := p_egg_id p;
     p_location_ids := p_location_ids p; p_docker_image := p_docker_image p;
     p_startup_command := p_startup_command p;
     p_environment_variables := p_environment_variables p;
     p_user_limit := p_user_limit p; p_stock_limit := p_stock_limit p;
     p_stock_used := n; p_enabled := p_enabled p |}.

Definition with_plans (f : gmap Z Plan -> gmap Z Plan) (db : Db) : Db :=
  {| users := users db;
     gift_cards := gift_cards db;
     gift_card_redemptions := gift_card_redemptions db;
     server_plans := f (server_plans db);
     user_servers := user_servers db |}.

(** [UPDATE server_plans SET stock_used = stock_used + 1 WHERE id = ?] *)
Definition incrementPlanStock (id : Z) (db : Db) : Db :=
  with_plans (alter (fun p => set_stock_used (sqlite_add1 (p_stock_used p)) p) id) db.

(** [UPDATE server_plans SET stock_used = stock_used - 1 WHERE id = ? AND
    stock_used > 0] *)
Definition decrementPlanStock (id : Z) (db : Db) : Db :=
  with_plans (alter (fun p => if 0 <? p_stock_used p
                              then set_stock_used (sqlite_sub1 (p_stock_used p)) p
                              else p) id) db.

Definition active_server_of (userId planId : Z) (s : UserServer) : bool :=
  (us_user_id s =? userId) && (us_plan_id s =? planId)
  && String.eqb (us_status s) "active".

(** [SELECT COUNT( * ) FROM user_servers WHERE user_id = ? AND plan_id = ?
    AND status = "active"] *)
Definition getUserServerCount (userId planId : Z) (db : Db) : Z :=
  Z.of_nat (length (List.filter (active_server_of userId planId) (user_servers db))).

(** [INSERT INTO user_servers (...) VALUES (...)], with [status || 'active']. *)
Definition createUserServer (s : UserServer) (db : Db) : Db :=
  {| users := users db;
     gift_cards := gift_cards db;
     gift_card_redemptions := gift_card_redemptions db;
     server_plans := server_plans db;
     user_servers :=
       user_servers db ++
       [{| us_user_id := us_user_id s; us_plan_id := us_plan_id s;
           us_pterodactyl_server_id := us_pterodactyl_server_id s;
           us_server_name := us_server_name s;
           us_server_identifier := us_server_identifier s;
           us_status := if Js.truthy_str (Some (us_status s))
                        then us_status s else "active" |}] |}.

End Database.

(** ** The provisioning gateway ([class PterodactylAPI]) *)

Module Pterodactyl.

(** The uniform answer of the gateway methods: [{success: true, data}] or
    [{success: false, error}]. *)
Inductive Result (A : Type) :=
| Success (data : A)
| Failure (error : string).
Arguments Success {A} data.
Arguments Failure {A} error.

Definition success {A} (r : Result A) : bool :=
  match r with
  | Success _ => true
  | Failure _ => false
  end.

(** [response.data.attributes] of a created server: the fields the purchase
    route reads. *)
Record ServerAttributes := {
  sa_id : Z;
  sa_identifier : string
}.

(** The [serverData] object built by the purchase route. *)
Record ServerData := {
  sd_name : string;
  sd_user : Z;
  sd_egg : Z;
  sd_docker_image : string;
  sd_startup : option string;
  sd_environment : Js.Value;
  sd_limits : Z * Z * Z * Z * Z;
  sd_feature_limits : Z * Z * Z;
  sd_deploy_locations : list Z
}.

(** One request sent to the panel, with the answer it got. *)
Inductive Exchange :=
| CreateUser (email : string) (answer : Result Z)
| CreateServer (data : ServerData) (answer : Result ServerAttributes)
| FetchUserServers (userId : Z).

(** *** The cached listing of a user's servers *)

(** What [GET /users/:id?include=servers] can produce. *)
Inductive Listing :=
| RequestFailed (error : string)
| NoAttributes
| NoRelationships
| Servers (ids : list ServerAttributes).

Record ServersResult := {
  sr_success : bool;
  sr_error : option string;
  sr_servers : list ServerAttributes
}.

Record CacheEntry := {
  ce_data : ServersResult;
  ce_timestamp : Z
}.

(** [this.cache], keyed by the user id of the key [user_servers_<id>]. *)
Record Api := {
  cache : gmap Z CacheEntry;
  cacheTTL : Z
}.

(** [new PterodactylAPI(...)]: an empty cache kept for one minute. *)
Definition new : Api := {| cache := ∅; cacheTTL := 60000 |}.

(** [_getCache(key)], at time [now]. *)
Definition _getCache (api : Api) (now : Z) (key : Z) : option ServersResult :=
  match cache api !! key with
  | Some cached =>
      if now - ce_timestamp cached <? cacheTTL api then Some (ce_data cached) else None
  | None => None
  end.

(** [_setCache(key, data)], at time [now]. *)
Definition _setCache (api : Api) (now : Z) (key : Z) (data : ServersResult) : Api :=
  {| cache := <[key := {| ce_data := data; ce_timestamp := now |}]> (cache api);
     cacheTTL := cacheTTL api |}.

(** [async getUserServers(userId)].  [now] is the clock when the cache is
    consulted, [later] the clock when an answer is stored, [remote] what the
    panel answers if it is asked.  The result comes with the new state of
    the object and the requests sent to the panel. *)
Definition getUserServers (api : Api) (now later : Z) (remote : Listing) (userId : Z)
  : ServersResult * Api * list Exchange :=
  match _getCache api now userId with
  | Some cached => (cached, api, [])
  | None =>
      match remote with
      | RequestFailed e =>
          ({| sr_success := false; sr_error := Some e; sr_servers := [] |},
           api, [FetchUserServers userId])
      | NoRelationships =>
          ({| sr_success := true; sr_error := None; sr_servers := [] |},
           api, [FetchUserServers userId])
      | Servers l =>
          let result := {| sr_success := true; sr_error := None; sr_servers := l |} in
          (result, _setCache api later userId result, [FetchUserServers userId])
      | NoAttributes =>
          let emptyResult := {| sr_success := true; sr_error := None; sr_servers := [] |} in
          (emptyResult, _setCache api later userId emptyResult, [FetchUserServers userId])
      end
  end.

(** The call of the sync route, [pterodactyl.getUserServers(id, true)]: the
    method declares one parameter, so the second argument is dropped. *)
Definition getUserServers_call (api : Api) (now later : Z) (remote : Listing)
  (userId : Z) (bypassCache : bool) : ServersResult * Api * list Exchange :=
  getUserServers api now later remote userId.

End Pterodactyl.

(** ** Asynchronous handlers *)

Module Async.
Import Database.

(** The calls a route awaits.  [linkPterodactylUser] is not among them:
    [class Database] has no such method.  The password drawn at random for
    a new panel account is left out of [PteroCreateUser]. *)
Inductive Call : Type -> Type :=
| DbGetUserById (id : Z) : Call (option User)
| DbGetGiftCard (code : string) : Call (option (Z * GiftCard))
| DbGetUserRedemptions (userId giftCardId : Z) : Call Z
| DbUpdateUserCredits (id : Z) (credits : float) : Call unit
| DbIncrementGiftCardUses (id : Z) : Call unit
| DbRedeemGiftCard (userId giftCardId : Z) (credits : float) : Call unit
| DbGetPlanById (id : Z) : Call (option Plan)
| DbGetUserServerCount (userId planId : Z) : Call Z
| DbIncrementPlanStock (id : Z) : Call unit
| DbCreateUserServer (row : UserServer) : Call unit
| PteroCreateUser (email : string) : Call (Pterodactyl.Result Z)
| PteroCreateServer (data : Pterodactyl.ServerData)
    : Call (Pterodactyl.Result Pterodactyl.ServerAttributes).

(** The body of a handler: it returns, throws, reads the clock, or awaits a
    call and goes on with its result. *)
Inductive Prog (A : Type) : Type :=
| Ret (a : A)
| Throw
| Clock (k : Z -> Prog A)
| Await {R : Type} (c : Call R) (k : R -> Prog A).
Arguments Ret {A} a.
Arguments Throw {A}.
Arguments Clock {A} k.
Arguments Await {A R} c k.

(** What the surroundings decide at one awaited call: the time, whether the
    statement fails in the store, and what the panel answers. *)
Record Env := {
  e_now : Z;
  e_fault : bool;
  e_createUser : Pterodactyl.Result Z;
  e_createServer : Pterodactyl.Result Pterodactyl.ServerAttributes
}.

Record World := {
  w_db : Db;
  w_panel : list Pterodactyl.Exchange
}.

Definition read {R} (f : Db -> R) (e : Env) (w : World) : option R * World :=
  if e_fault e then (None, w) else (Some (f (w_db w)), w).

Definition write (f : Db -> Db) (e : Env) (w : World) : option unit * World :=
  if e_fault e then (None, w)
  else (Some tt, {| w_db := f (w_db w); w_panel := w_panel w |}).

Definition exchange {R} (answer : R) (x : Pterodactyl.Exchange) (w : World)
  : option R * World :=
  (Some answer, {| w_db := w_db w; w_panel := w_panel w ++ [x] |}).

(** One awaited call.  A statement either fails as a whole (the promise is
    rejected, [None]) or takes effect as a whole; the gateway methods catch
    their errors and always resolve. *)
Definition perform {R} (c : Call R) (e : Env) (w : World) : option R * World :=
  match c in Call R return option R * World with
  | DbGetUserById id => read (getUserById id) e w
  | DbGetGiftCard code => read (getGiftCard code) e w
  | DbGetUserRedemptions u g => read (getUserRedemptions u g) e w
  | DbUpdateUserCredits id c => write (updateUserCredits id c) e w
  | DbIncrementGiftCardUses id => write (incrementGiftCardUses id) e w
  | DbRedeemGiftCard u g c => write (redeemGiftCard u g c) e w
  | DbGetPlanById id => read (getPlanById id) e w
  | DbGetUserServerCount u p => read (getUserServerCount u p) e w
  | DbIncrementPlanStock id => write (incrementPlanStock id) e w
  | DbCreateUserServer row => write (createUserServer row) e w
  | PteroCreateUser email =>
      exchange (e_createUser e) (Pterodactyl.CreateUser email (e_createUser e)) w
  | PteroCreateServer d =>
      exchange (e_createServer e) (Pterodactyl.CreateServer d (e_createServer e)) w
  end.

(** A request running alone: the [n]-th awaited call meets [env n]. *)
Fixpoint run {A} (p : Prog A) (env : nat -> Env) (n : nat) (w : World)
  : option A * World :=
  match p with
  | Ret a => (Some a, w)
  | Throw => (None, w)
  | Clock k => run (k (e_now (env n))) env n w
  | Await c k =>
      match perform c (env n) w with
      | (Some r, w') => run (k r) env (S n) w'
      | (None, w') => (None, w')
      end
  end.

(** [try { body } catch (error) { handler }] around a whole route. *)
Definition caught {A} (handler : A) (r : option A * World) : A * World :=
  match r with
  | (Some a, w') => (a, w')
  | (None, w') => (handler, w')
  end.

Definition try_catch {A} (body : Prog A) (handler : A) (env : nat -> Env) (w : World)
  : A * World :=
  caught handler (run body env 0%nat w).

(** Requests running together.  At a tick one request runs its synchronous
    code up to its next [await] and performs that call; as in [run], the
    clock it reads on the way is the one of the tick. *)
Fixpoint settle {A} (now : Z) (p : Prog A) : Prog A :=
  match p with
  | Clock k => settle now (k now)
  | _ => p
  end.

Definition step {A} (p : Prog A) (e : Env) (w : World) : Prog A * World :=
  match settle (e_now e) p with
  | Await c k =>
      match perform c e w with
      | (Some r, w') => (k r, w')
      | (None, w') => (Throw, w')
      end
  | q => (q, w)
  end.

Fixpoint run_sched {A} (sched : list (nat * Env)) (pool : list (Prog A)) (w : World)
  : list (Prog A) * World :=
  match sched with
  | [] => (pool, w)
  | (i, e) :: rest =>
      match pool !! i with
      | Some p =>
          let '(p', w') := step p e w in
          run_sched rest (<[i := p']> pool) w'
      | None => run_sched rest pool w
      end
  end.

(** The schedule of a request that is alone: [k] ticks, the first one
    meeting [env n]. *)
Fixpoint solo (env : nat -> Env) (n k : nat) : list (nat * Env) :=
  match k with
  | O => []
  | S k' => (0%nat, env n) :: solo env (S n) k'
  end.

(** The response of a request in a pool, once it has one. *)
Definition response {A} (handler : A) (p : Prog A) : option A :=
  match p with
  | Ret a => Some a
  | Throw => Some handler
  | _ => None
  end.

End Async.

(** ** The routes of [routes/dashboard.js] *)

Module Dashboard.
Import Database Async.

Inductive Flash :=
| Error (msg : string)
| Redeemed (amount : float).

(** What a route answers: [res.redirect(url)], a redirect to
    [url?key=msg], or [res.render('redeem', ...)] with the credits shown and
    the [error] or [success] entry. *)
Inductive Response :=
| Redirect (url : string)
| RedirectMsg (url key msg : string)
| RenderRedeem (credits : float) (flash : Flash).

(** The reasons shown to the user, under the names of the specification. *)
Definition InvalidCode := "Invalid gift card code".
Definition CardDisabled := "This gift card is no longer active".
Definition CardExpired := "This gift card has expired".
Definition UsageLimitReached := "This gift card has reached its usage limit".
Definition PerUserLimitReached :=
  "You have already redeemed this gift card the maximum number of times".

Definition MissingFields := "Missing required fields".
Definition PlanUnavailable := "Invalid plan".
Definition InsufficientCredits := "Insufficient credits".
Definition UserLimitReached := "You have reached the maximum limit for this plan".
Definition OutOfStock := "This plan is out of stock".
Definition ProvisioningAccountFailed := "Failed to create panel account".
Definition ProvisioningInstanceFailed (error : string) : string :=
  String.append "Server creation failed: " error.
Definition PurchaseError := "An error occurred during purchase".

(** [giftCard.expires_at && new Date(giftCard.expires_at) < new Date()],
    once the clock is known. *)
Definition expired (x : Expiry) (now : Z) : bool :=
  match x with
  | ExpiresAt t => t <? now
  | _ => false
  end.

(** The three writes of a redemption and the final rendering. *)
Definition redeem_commit (userId id : Z) (giftCard : GiftCard) : Prog Response :=
  Await (DbUpdateUserCredits userId (gc_credits giftCard)) (fun _ =>
  Await (DbIncrementGiftCardUses id) (fun _ =>
  Await (DbRedeemGiftCard userId id (gc_credits giftCard)) (fun _ =>
  Await (DbGetUserById userId) (fun updatedUser =>
  match updatedUser with
  | None => Throw
  | Some updatedUser =>
      Ret (RenderRedeem (Js.or_zero (u_credits updatedUser))
                        (Redeemed (gc_credits giftCard)))
  end)))).

(** The checks on uses and the per-user limit, then the commit. *)
Definition redeem_limits (userId id : Z) (user : User) (giftCard : GiftCard)
  : Prog Response :=
  let refuse msg := Ret (RenderRedeem (Js.or_zero (u_credits user)) (Error msg)) in
  if gc_max_uses giftCard <=? gc_uses giftCard then refuse UsageLimitReached
  else
    Await (DbGetUserRedemptions userId id) (fun userRedemptions =>
    if gc_per_user_limit giftCard <=? userRedemptions then refuse PerUserLimitReached
    else redeem_commit userId id giftCard).

Section Redeem.
Context `{Js.Runtime}.

(** Body of [router.post('/redeem', ...)]. *)
Definition redeem_body (userId : Z) (code : string) : Prog Response :=
  Await (DbGetUserById userId) (fun user =>
  match user with
  | None => Ret (Redirect "/login")
  | Some user =>
      let refuse msg := Ret (RenderRedeem (Js.or_zero (u_credits user)) (Error msg)) in
      Await (DbGetGiftCard (Js.toUpperCase code)) (fun giftCard =>
      match giftCard with
      | None => refuse InvalidCode
      | Some (id, giftCard) =>
          if negb (Js.truthy (gc_enabled giftCard)) then refuse CardDisabled
          else
            match gc_expires_at giftCard with
            | NoExpiry => redeem_limits userId id user giftCard
            | expires_at =>
                Clock (fun now =>
                if expired expires_at now then refuse CardExpired
                else redeem_limits userId id user giftCard)
            end
      end)
  end).

Definition RedeemError := Redirect "/dashboard/redeem".

(** [router.post('/redeem', ...)] for the signed-in user [userId]. *)
Definition redeem (userId : Z) (code : string) (env : nat -> Env) (w : World)
  : Response * World :=
  try_catch (redeem_body userId code) RedeemError env w.

End Redeem.

Section Purchase.
Context `{Js.Runtime}.

(** [plan.location_ids.split(',').map(id => parseInt(id.trim()))
    .filter(id => !isNaN(id))].  [parseInt] skips the white space in front
    of the digits itself and stops at what follows them, so that the white
    space [trim] removes makes no difference to the number read. *)
Definition locationIds (plan : Plan) : list Z :=
  omap (fun id => Js.parseInt (Js.trim id)) (Js.split_comma (p_location_ids plan)).

(** The [environment] of the request: [{}] unless the column is set and
    parses. *)
Definition environment (plan : Plan) : Js.Value :=
  match p_environment_variables plan with
  | Some (String _ _ as text) =>
      if Js.JSON_parses text then Js.Parsed text else Js.EmptyObject
  | _ => Js.EmptyObject
  end.

Definition serverData (server_name : string) (pterodactyl_id : Z) (plan : Plan)
  : Pterodactyl.ServerData :=
  {| Pterodactyl.sd_name := server_name;
     Pterodactyl.sd_user := pterodactyl_id;
     Pterodactyl.sd_egg := p_egg_id plan;
     Pterodactyl.sd_docker_image :=
       match p_docker_image plan with
       | Some (String _ _ as image) => image
       | _ => "ghcr.io/pterodactyl/yolks:java_17"
       end;
     Pterodactyl.sd_startup :=
       match p_startup_command plan with
       | Some (String _ _ as command) => Some command
       | _ => None
       end;
     Pterodactyl.sd_environment := environment plan;
     Pterodactyl.sd_limits :=
       (p_ram plan, p_disk plan, p_cpu plan, p_swap plan, p_io plan);
     Pterodactyl.sd_feature_limits :=
       (p_databases plan, p_backups plan, p_allocations plan);
     Pterodactyl.sd_deploy_locations := locationIds plan |}.

Definition instances := "/dashboard/instances".

Definition created (server_name : string) : string :=
  String.append "Server "
    (String "034" (String.append server_name
      (String "034" " created successfully!"))).

Definition Purchased (server_name : string) : Response :=
  RedirectMsg "/dashboard" "success" (created server_name).

Definition PurchaseFailed : Response := RedirectMsg instances "error" PurchaseError.

(** The three writes of a purchase and the final redirect. *)
Definition purchase_commit (userId plan_id : Z) (server_name : string) (plan : Plan)
  (data : Pterodactyl.ServerAttributes) : Prog Response :=
  Await (DbUpdateUserCredits userId (PrimFloat.opp (p_price plan))) (fun _ =>
  Await (DbIncrementPlanStock plan_id) (fun _ =>
  Await (DbCreateUserServer
           {| us_user_id := userId; us_plan_id := plan_id;
              us_pterodactyl_server_id := Pterodactyl.sa_id data;
              us_server_name := server_name;
              us_server_identifier := Pterodactyl.sa_identifier data;
              us_status := "active" |}) (fun _ =>
  Ret (Purchased server_name)))).

(** Building the request and creating the server. *)
Definition purchase_create (userId plan_id : Z) (server_name : string) (plan : Plan)
  (pterodactyl_id : Z) : Prog Response :=
  Await (PteroCreateServer (serverData server_name pterodactyl_id plan))
    (fun serverResult =>
    match serverResult with
    | Pterodactyl.Failure error =>
        Ret (RedirectMsg instances "error" (ProvisioningInstanceFailed error))
    | Pterodactyl.Success data =>
        purchase_commit userId plan_id server_name plan data
    end).

(** "Ensure user has Pterodactyl account".  After a panel account has been
    created the route calls [db.linkPterodactylUser], which is not a method
    of [Database]: the call throws a [TypeError]. *)
Definition purchase_account (userId plan_id : Z) (server_name : string) (user : User)
  (plan : Plan) : Prog Response :=
  let create_account :=
    Await (PteroCreateUser (u_email user)) (fun pteroUser =>
    if Pterodactyl.success pteroUser then Throw
    else Ret (RedirectMsg instances "error" ProvisioningAccountFailed)) in
  match u_pterodactyl_id user with
  | Some pterodactyl_id =>
      if Js.truthy pterodactyl_id
      then purchase_create userId plan_id server_name plan pterodactyl_id
      else create_account
  | None => create_account
  end.

(** The stock check, then the provisioning. *)
Definition purchase_stock (userId plan_id : Z) (server_name : string) (user : User)
  (plan : Plan) : Prog Response :=
  if (0 <? p_stock_limit plan) && (p_stock_limit plan <=? p_stock_used plan)
  then Ret (RedirectMsg instances "error" OutOfStock)
  else purchase_account userId plan_id server_name user plan.

(** Body of [router.post('/instances/purchase', ...)].  [plan_id] is [None]
    when the field is missing or empty. *)
Definition purchase_body (userId : Z) (plan_id : option Z) (server_name : string)
  : Prog Response :=
  Await (DbGetUserById userId) (fun user =>
  match user, plan_id, Js.truthy_str (Some server_name) with
  | Some user, Some plan_id, true =>
      Await (DbGetPlanById plan_id) (fun plan =>
      match plan with
      | None => Ret (RedirectMsg instances "error" PlanUnavailable)
      | Some plan =>
          if negb (Js.truthy (p_enabled plan))
          then Ret (RedirectMsg instances "error" PlanUnavailable)
          else if PrimFloat.ltb (u_credits user) (p_price plan)
          then Ret (RedirectMsg instances "error" InsufficientCredits)
          else if 0 <? p_user_limit plan
          then
            Await (DbGetUserServerCount userId plan_id) (fun userServerCount =>
            if p_user_limit plan <=? userServerCount
            then Ret (RedirectMsg instances "error" UserLimitReached)
            else purchase_stock userId plan_id server_name user plan)
          else purchase_stock userId plan_id server_name user plan
      end)
  | _, _, _ => Ret (RedirectMsg instances "error" MissingFields)
  end).

(** [router.post('/instances/purchase', ...)] for the signed-in user. *)
Definition purchase (userId : Z) (plan_id : option Z) (server_name : string)
  (env : nat -> Env) (w : World) : Response * World :=
  try_catch (purchase_body userId plan_id server_name) PurchaseFailed env w.

End Purchase.

End Dashboard.

(** ** The wording of the specification *)

Module Spec.
Import Database Async Dashboard.

(** "[code] is normalized (trimmed, upper-cased) before lookup." *)
Definition normalize `{Js.Runtime} (code : string) : string :=
  Js.toUpperCase (Js.trim code).

(** "for all gift cards, [uses <= max_uses]". *)
Definition uses_within_max (db : Db) : Prop :=
  forall id card, gift_cards db !! id = Some card -> gc_uses card <= gc_max_uses card.

(** "for all plans with [stock_limit > 0], [stock_used <= stock_limit]". *)
Definition stock_within_limit (db : Db) : Prop :=
  forall id plan, server_plans db !! id = Some plan ->
    0 < p_stock_limit plan -> p_stock_used plan <= p_stock_limit plan.


(** A validation sequence: checks with the reason given when one fails;
    the first failure wins. *)
Fixpoint first_failure (checks : list (bool * string)) : option string :=
  match checks with
  | [] => None
  | (passes, reason) :: rest => if passes then first_failure rest else Some reason
  end.

(** The validation sequence of a redemption (4.1), for the card found, the
    current time and the number of prior redemptions by the user. *)
Definition redeem_checks (found : option GiftCard) (now prior : Z)
  : list (bool * string) :=
  match found with
  | None => [(false, InvalidCode)]
  | Some card =>
      [ (Js.truthy (gc_enabled card), CardDisabled);
        (negb (match gc_expires_at card with
               | ExpiresAt t => t <? now
               | _ => false
               end), CardExpired);
        (gc_uses card <? gc_max_uses card, UsageLimitReached);
        (prior <? gc_per_user_limit card, PerUserLimitReached) ]
  end.

(** The number of redemptions of the card found that the user has made. *)
Definition prior_redemptions (userId : Z) (db : Db) (found : option (Z * GiftCard)) : Z :=
  match found with
  | Some (id, _) => getUserRedemptions userId id db
  | None => 0
  end.

(** The validation sequence of a purchase (4.2), for the plan found, the
    balance of the user and the number of active instances the user has on
    the plan. *)
Definition purchase_checks (found : option Plan) (balance : float) (active : Z)
  : list (bool * string) :=
  match found with
  | None => [(false, PlanUnavailable)]
  | Some plan =>
      [ (Js.truthy (p_enabled plan), PlanUnavailable);
        (PrimFloat.leb (p_price plan) balance, InsufficientCredits);
        (negb (0 <? p_user_limit plan) || (active <? p_user_limit plan),
         UserLimitReached);
        (negb (0 <? p_stock_limit plan) || (p_stock_used plan <? p_stock_limit plan),
         OutOfStock) ]
  end.

End Spec.

(** ** What requests do to the store and the panel *)

Module Effects.
Import Database Async Dashboard.

(** Requests handled one after another, each one to its end. *)
Definition redeem_serially `{Js.Runtime} (requests : list (Z * string * (nat -> Env))) (w : World)
  : World :=
  foldl (fun w r => snd (redeem r.1.1 r.1.2 r.2 w)) w requests.

Definition purchase_serially `{Js.Runtime}
  (requests : list (Z * option Z * string * (nat -> Env))) (w : World) : World :=
  foldl (fun w r => snd (purchase r.1.1.1 r.1.1.2 r.1.2 r.2 w)) w requests.

(** The requests sent to the panel between two states of the world. *)
Definition new_exchanges (w w' : World) : list Pterodactyl.Exchange :=
  drop (length (w_panel w)) (w_panel w').

(** The three writes of a redemption, cut short by the first one that fails:
    [faults] tells for each of them whether the store rejects it. *)
Definition redeem_writes (userId id : Z) (card : GiftCard) (faults : bool * bool * bool)
  (db : Db) : Db :=
  let '(f1, f2, f3) := faults in
  if f1 then db
  else
    let db1 := updateUserCredits userId (gc_credits card) db in
    if f2 then db1
    else
      let db2 := incrementGiftCardUses id db1 in
      if f3 then db2 else redeemGiftCard userId id (gc_credits card) db2.

(** The three writes of a purchase, cut short in the same way. *)
Definition purchase_writes (userId plan_id : Z) (server_name : string) (plan : Plan)
  (data : Pterodactyl.ServerAttributes) (faults : bool * bool * bool) (db : Db) : Db :=
  let '(f1, f2, f3) := faults in
  if f1 then db
  else
    let db1 := updateUserCredits userId (PrimFloat.opp (p_price plan)) db in
    if f2 then db1
    else
      let db2 := incrementPlanStock plan_id db1 in
      if f3 then db2
      else createUserServer
             {| us_user_id := userId; us_plan_id := plan_id;
                us_pterodactyl_server_id := Pterodactyl.sa_id data;
                us_server_name := server_name;
                us_server_identifier := Pterodactyl.sa_identifier data;
                us_status := "active" |} db2.

(** No write was rejected. *)
Definition all_accepted (faults : bool * bool * bool) : bool :=
  let '(f1, f2, f3) := faults in negb (f1 || f2 || f3).

(** The four ways a purchase can end, seen from the store and the panel:
    nothing was sent or written; a panel account was asked for; the panel
    refused the server; the panel created the server and the writes were
    issued. *)
Definition purchase_ends `{Js.Runtime} (userId plan_id : Z) (server_name : string) (user : User)
  (plan : Plan) (w : World) (result : Response * World) : Prop :=
  (snd result = w /\ fst result <> Purchased server_name)
  \/ (exists answer,
        w_db (snd result) = w_db w
        /\ w_panel (snd result)
           = w_panel w ++ [Pterodactyl.CreateUser (u_email user) answer]
        /\ fst result = (if Pterodactyl.success answer then PurchaseFailed
                         else RedirectMsg instances "error" ProvisioningAccountFailed))
  \/ (exists pterodactyl_id error,
        w_db (snd result) = w_db w
        /\ w_panel (snd result)
           = w_panel w ++ [Pterodactyl.CreateServer
                             (serverData server_name pterodactyl_id plan)
                             (Pterodactyl.Failure error)]
        /\ fst result = RedirectMsg instances "error" (ProvisioningInstanceFailed error))
  \/ (exists pterodactyl_id data faults,
        PrimFloat.ltb (u_credits user) (p_price plan) = false
        /\ (0 < p_stock_limit plan -> p_stock_used plan < p_stock_limit plan)
        /\ w_panel (snd result)
           = w_panel w ++ [Pterodactyl.CreateServer
                             (serverData server_name pterodactyl_id plan)
                             (Pterodactyl.Success data)]
        /\ w_db (snd result)
           = Effects.purchase_writes userId plan_id server_name plan data faults (w_db w)
        /\ fst result = (if all_accepted faults then Purchased server_name
                         else PurchaseFailed)).

End Effects.

(** ** Concrete situations *)

Module Scenario.
Import Database Async Dashboard.

(** A run-time whose [JSON.parse] accepts the text of the empty object only,
    whose [parseInt] reads a single decimal digit and whose [toUpperCase]
    knows the ASCII letters only; the situations below use ASCII texts. *)
#[export] Instance runtime : Js.Runtime := {|
  Js.JSON_parses s := String.eqb s "{}";
  Js.parseInt s :=
    match s with
    | String c EmptyString =>
        let n := nat_of_ascii c in
        if ((48 <=? n)%nat && (n <=? 57)%nat)%bool then Some (Z.of_nat (n - 48)) else None
    | _ => None
    end;
  Js.toUpperCase := Js.upper_ascii_text;
  Js.toUpperCase_ascii := fun s _ => eq_refl
|}.

(** Nothing fails: the store accepts every statement and the panel creates
    what it is asked for. *)
Definition calm : Env :=
  {| e_now := 1000; e_fault := false;
     e_createUser := Pterodactyl.Success 41;
     e_createServer :=
       Pterodactyl.Success {| Pterodactyl.sa_id := 77;
                              Pterodactyl.sa_identifier := "a1b2c3d4" |} |}.

(** The store rejects the statement. *)
Definition failing : Env :=
  {| e_now := 1000; e_fault := true;
     e_createUser := e_createUser calm;
     e_createServer := e_createServer calm |}.

(** The panel refuses to create anything. *)
Definition refusing : Env :=
  {| e_now := 1000; e_fault := false;
     e_createUser := Pterodactyl.Failure "The email has already been taken.";
     e_createServer := Pterodactyl.Failure "No viable nodes found." |}.

Definition alice : User :=
  {| u_email := "alice@example.org"; u_credits := 0%float; u_pterodactyl_id := Some 11 |}.
Definition bob : User :=
  {| u_email := "bob@example.org"; u_credits := 20%float; u_pterodactyl_id := Some 12 |}.
Definition dave : User :=
  {| u_email := "dave@example.org"; u_credits := 8%float; u_pterodactyl_id := Some 14 |}.
Definition carol : User :=
  {| u_email := "carol@example.org"; u_credits := 3%float; u_pterodactyl_id := None |}.

(** Card [SAVE10]: 10 credits, one use in all, one per user, no expiry. *)
Definition save10 : GiftCard :=
  {| gc_code := "SAVE10"; gc_credits := 10%float; gc_max_uses := 1; gc_uses := 0;
     gc_per_user_limit := 1; gc_enabled := 1; gc_expires_at := NoExpiry |}.

(** A plan at price 5 with one unit of stock left; its environment column
    holds a text that is not JSON. *)
Definition basic : Plan :=
  {| p_price := 5%float; p_cpu := 100; p_ram := 1024; p_disk := 2048; p_swap := 0;
     p_io := 500; p_databases := 0; p_backups := 0; p_allocations := 1;
     p_egg_id := 3; p_location_ids := "1, 2,x";
     p_docker_image := None; p_startup_command := None;
     p_environment_variables := Some "{oops";
     p_user_limit := 0; p_stock_limit := 2; p_stock_used := 1; p_enabled := 1 |}.

Definition store : Db :=
  {| users := <[1 := alice]> (<[2 := bob]> (<[3 := carol]> (<[4 := dave]> ∅)));
     gift_cards := <[5 := save10]> ∅;
     gift_card_redemptions := [];
     server_plans := <[7 := basic]> ∅;
     user_servers := [] |}.

Definition world : World := {| w_db := store; w_panel := [] |}.



(** Cards on which several checks fail at once: [LAPSED] is switched off,
    past its date, used up and at its per-user limit; [OLD] is the same but
    switched on; [USED] has no date; [ONCE] has uses left as well. *)
Definition lapsed : GiftCard :=
  {| gc_code := "LAPSED"; gc_credits := 5%float; gc_max_uses := 1; gc_uses := 1;
     gc_per_user_limit := 0; gc_enabled := 0; gc_expires_at := ExpiresAt 500 |}.
Definition old : GiftCard :=
  {| gc_code := "OLD"; gc_credits := 5%float; gc_max_uses := 1; gc_uses := 1;
     gc_per_user_limit := 0; gc_enabled := 1; gc_expires_at := ExpiresAt 500 |}.
Definition used : GiftCard :=
  {| gc_code := "USED"; gc_credits := 5%float; gc_max_uses := 1; gc_uses := 1;
     gc_per_user_limit := 0; gc_enabled := 1; gc_expires_at := NoExpiry |}.
Definition once : GiftCard :=
  {| gc_code := "ONCE"; gc_credits := 5%float; gc_max_uses := 5; gc_uses := 0;
     gc_per_user_limit := 0; gc_enabled := 1; gc_expires_at := NoExpiry |}.

Definition ledger : World :=
  {| w_db :=
       {| users := users store;
          gift_cards := <[1 := lapsed]> (<[2 := old]> (<[3 := used]> (<[4 := once]> ∅)));
          gift_card_redemptions := [];
          server_plans := server_plans store;
          user_servers := [] |};
     w_panel := [] |}.

(** The gateway twenty seconds after it cached an empty listing for the
    panel account 12, and the server that exists on the panel by now. *)
Definition stale_listing : Pterodactyl.ServersResult :=
  {| Pterodactyl.sr_success := true; Pterodactyl.sr_error := None;
     Pterodactyl.sr_servers := [] |}.

Definition cached_api : Pterodactyl.Api :=
  Pterodactyl._setCache Pterodactyl.new 10000 12 stale_listing.

Definition fresh_server : Pterodactyl.ServerAttributes :=
  {| Pterodactyl.sa_id := 77; Pterodactyl.sa_identifier := "a1b2c3d4" |}.

(** Two requests taking turns at every [await]. *)
Definition alternating (ticks : nat) : list (nat * Env) :=
  mjoin (replicate ticks [(0%nat, calm); (1%nat, calm)]).

(** The store rejects the [k]-th awaited statement only. *)
Definition failing_at (k : nat) : nat -> Env :=
  fun n => if (n =? k)%nat then failing else calm.

End Scenario.

(** ** The guards of [middleware/auth.js] and the home route *)

Module Middleware.

(** The part of [req.session] that the guards read.  [twoFAVerified] is
    taken by its truthiness. *)
Record Session := {
  s_userId : option Z;
  s_twoFAVerified : bool;
  s_role : option string
}.

(** What a guard does with a request: it calls [next()], redirects, renders
    the 403 page with its [user] entry, or throws a [TypeError]. *)
Inductive Verdict :=
| Next
| Redirect (url : string)
| Forbidden (user : option (option string))
| TypeError.

(** [req.session.userId] as a condition. *)
Definition has_user (s : Session) : bool :=
  match s_userId s with
  | Some id => Js.truthy id
  | None => false
  end.

(** [req.session] is [None] when the request carries no session object. *)
Definition requireAuth (session : option Session) : Verdict :=
  match session with
  | Some s => if has_user s then Next else Redirect "/login"
  | None => Redirect "/login"
  end.

Definition require2FA (session : option Session) : Verdict :=
  match session with
  | Some s =>
      if has_user s && s_twoFAVerified s then Next
      else if has_user s && negb (s_twoFAVerified s) then Redirect "/verify-2fa"
      else Redirect "/login"
  | None => Redirect "/login"
  end.

Definition requireAdmin (session : option Session) : Verdict :=
  match session with
  | Some s =>
      if has_user s && s_twoFAVerified s
         && bool_decide (s_role s = Some "admin")
      then Next
      else Forbidden (if has_user s then Some (s_role s) else None)
  | None => TypeError
  end.

Definition redirectIfAuthenticated (session : option Session) : Verdict :=
  match session with
  | Some s => if has_user s && s_twoFAVerified s then Redirect "/dashboard" else Next
  | None => Next
  end.

(** [app.get('/', ...)] of [server.js]. *)
Definition home (session : option Session) : Verdict :=
  match session with
  | Some s =>
      if has_user s && s_twoFAVerified s then Redirect "/dashboard"
      else Redirect "/login"
  | None => TypeError
  end.

(** The guard in front of the page a redirect leads to:
    [router.get('/login', redirectIfAuthenticated, ...)],
    [router.get('/verify-2fa', requireAuth, ...)],
    [router.get('/setup-2fa', requireAuth, ...)] and
    [router.get('/', require2FA, ...)] mounted at [/dashboard]. *)
Definition guard_of (url : string) : option (option Session -> Verdict) :=
  if String.eqb url "/login" then Some redirectIfAuthenticated
  else if String.eqb url "/verify-2fa" then Some requireAuth
  else if String.eqb url "/setup-2fa" then Some requireAuth
  else if String.eqb url "/dashboard" then Some require2FA
  else None.

End Middleware.

(** ** The statements and routes of the administrator *)

Module Admin.
Import Database.

Definition with_cards (f : gmap Z GiftCard -> gmap Z GiftCard) (db : Db) : Db :=
  {| users := users db;
     gift_cards := f (gift_cards db);
     gift_card_redemptions := gift_card_redemptions db;
     server_plans := server_plans db;
     user_servers := user_servers db |}.

(** Whether some row of [gift_cards] carries the code. *)
Definition code_taken (code : string) (db : Db) : bool :=
  bool_decide (is_Some (getGiftCard code db)).

(** [INSERT INTO gift_cards (code, credits, max_uses, per_user_limit,
    expires_at) VALUES (?, ?, ?, ?, ?)].  [lastID] is the row id that SQLite
    assigns, one that is not in use; [uses] and [enabled] take their
    defaults 0 and 1.  The statement is rejected ([None]) when the code is
    taken, the column being [UNIQUE], and when [credits] is [NaN]: the
    driver binds [NaN] as [NULL] and the column is [REAL NOT NULL].
    [maxUses] and [perUserLimit] are the integers that [parseInt] read. *)
Definition createGiftCard (lastID : Z) (code : string) (credits : float)
  (maxUses perUserLimit : Z) (expiresAt : Expiry) (db : Db) : option Db :=
  if code_taken code db || Js.is_nan credits then None
  else Some (with_cards
               (insert lastID
                  {| gc_code := code; gc_credits := credits; gc_max_uses := maxUses;
                     gc_uses := 0; gc_per_user_limit := perUserLimit;
                     gc_enabled := 1; gc_expires_at := expiresAt |}) db).

(** The [data] object of [updateGiftCard]: an absent entry is [undefined]. *)
Record GiftCardData := {
  d_credits : option float;
  d_max_uses : option Z;
  d_per_user_limit : option Z;
  d_enabled : option Z;
  d_expires_at : option Expiry
}.

Definition set_fields (data : GiftCardData) (c : GiftCard) : GiftCard :=
  {| gc_code := gc_code c;
     gc_credits := default (gc_credits c) (d_credits data);
     gc_max_uses := default (gc_max_uses c) (d_max_uses data);
     gc_uses := gc_uses c;
     gc_per_user_limit := default (gc_per_user_limit c) (d_per_user_limit data);
     gc_enabled := default (gc_enabled c) (d_enabled data);
     gc_expires_at := default (gc_expires_at c) (d_expires_at data) |}.

Definition pushed {A} (entry : option A) (field : string) : list string :=
  match entry with
  | Some _ => [field]
  | None => []
  end.

(** The array [fields] once the five entries have been looked at. *)
Definition fields (data : GiftCardData) : list string :=
  pushed (d_credits data) "credits = ?"
  ++ pushed (d_max_uses data) "max_uses = ?"
  ++ pushed (d_per_user_limit data) "per_user_limit = ?"
  ++ pushed (d_enabled data) "enabled = ?"
  ++ pushed (d_expires_at data) "expires_at = ?".

(** [UPDATE gift_cards SET <fields> WHERE id = ?].  With no field the text
    is [UPDATE gift_cards SET  WHERE id = ?], which SQLite refuses to
    prepare: the statement is rejected. *)
Definition updateGiftCard (id : Z) (data : GiftCardData) (db : Db) : option Db :=
  match fields data with
  | [] => None
  | _ :: _ => Some (with_cards (alter (set_fields data) id) db)
  end.

(** [DELETE FROM gift_cards WHERE id = ?] *)
Definition deleteGiftCard (id : Z) (db : Db) : Db := with_cards (delete id) db.

(** [DELETE FROM server_plans WHERE id = ?] *)
Definition deletePlan (id : Z) (db : Db) : Db := with_plans (delete id) db.

(** What the two JSON routes on a gift card answer. *)
Inductive Answer :=
| Done
| Failed (status : Z) (error : string).

(** [router.post('/admin/gift-cards/:id/toggle', ...)]: [enabled] is the
    truthiness of the field of that name, [fault] tells whether the store
    rejects the statement. *)
Definition toggle (id : Z) (enabled : bool) (fault : bool) (db : Db) : Answer * Db :=
  let data := {| d_credits := None; d_max_uses := None; d_per_user_limit := None;
                 d_enabled := Some (if enabled then 1 else 0);
                 d_expires_at := None |} in
  match (if fault then None else updateGiftCard id data db) with
  | Some db' => (Done, db')
  | None => (Failed 500 "Failed to toggle gift card", db)
  end.

(** [router.post('/admin/gift-cards/:id/delete', ...)] *)
Definition delete_card (id : Z) (fault : bool) (db : Db) : Answer * Db :=
  if fault then (Failed 500 "Failed to delete gift card", db)
  else (Done, deleteGiftCard id db).

End Admin.

(** ** Further conditions on the store and on the gateway *)

Module Conditions.
Import Database Async Dashboard.

(** No two gift cards carry the same code ([code TEXT UNIQUE]). *)
Definition codes_unique (db : Db) : Prop :=
  forall i j c d,
    gift_cards db !! i = Some c -> gift_cards db !! j = Some d ->
    gc_code c = gc_code d -> i = j.

(** The table [gift_card_redemptions] holds for no user more records of a
    card than the card allows per user.  This bounds the records, which is
    what the route counts, not the credits handed out: a redemption whose
    third write is rejected credits the user and leaves no record. *)
Definition records_within_limit (db : Db) : Prop :=
  forall userId id card,
    gift_cards db !! id = Some card ->
    getUserRedemptions userId id db <= gc_per_user_limit card.

(** The redemptions recorded for a card. *)
Definition redemptions_of_card (id : Z) (db : Db) : Z :=
  Z.of_nat (length (List.filter (fun r => r_gift_card_id r =? id)
                                (gift_card_redemptions db))).

(** The uses counted on every card are the redemptions recorded for it, as
    far as SQLite's [uses + 1] counts: up to [2^63]. *)
Definition uses_match_records (db : Db) : Prop :=
  forall id card, gift_cards db !! id = Some card ->
    gc_uses card = Z.min (redemptions_of_card id db) (int64_max + 1).


(** [user.pterodactyl_id] as a condition: the user has a panel account. *)
Definition linked (user : User) : bool :=
  match u_pterodactyl_id user with
  | Some pterodactyl_id => Js.truthy pterodactyl_id
  | None => false
  end.

(** A purchase that was held back: the store is as before and the answer is
    not the success; the panel was sent nothing, or was asked for an account
    for a user who has none, or refused the server of a user who has one. *)
Definition held_back (userId : Z) (server_name : string) (w : World)
  (result : Response * World) : Prop :=
  w_db (snd result) = w_db w
  /\ fst result <> Purchased server_name
  /\ (w_panel (snd result) = w_panel w
      \/ (exists user answer,
            users (w_db w) !! userId = Some user
            /\ linked user = false
            /\ w_panel (snd result)
               = w_panel w ++ [Pterodactyl.CreateUser (u_email user) answer]
            /\ fst result = (if Pterodactyl.success answer then PurchaseFailed
                             else RedirectMsg instances "error"
                                    ProvisioningAccountFailed))
      \/ (exists user data error,
            users (w_db w) !! userId = Some user
            /\ linked user = true
            /\ w_panel (snd result)
               = w_panel w ++ [Pterodactyl.CreateServer data (Pterodactyl.Failure error)])).

(** A purchase that went through to its writes: it passed the checks on the
    rows read at its start, for a user with a panel account, the panel
    created the server at the awaited call [n], and the three writes met
    the calls after it. *)
Definition went_through `{Js.Runtime} (userId : Z) (plan_id : option Z)
  (server_name : string) (env : nat -> Env) (w : World)
  (result : Response * World) : Prop :=
  exists id user plan pterodactyl_id data n,
    plan_id = Some id
    /\ users (w_db w) !! userId = Some user
    /\ server_plans (w_db w) !! id = Some plan
    /\ u_pterodactyl_id user = Some pterodactyl_id
    /\ Js.truthy pterodactyl_id = true
    /\ (0 < p_user_limit plan ->
        getUserServerCount userId id (w_db w) < p_user_limit plan)
    /\ w_panel (snd result)
       = w_panel w ++ [Pterodactyl.CreateServer
                         (serverData server_name pterodactyl_id plan)
                         (Pterodactyl.Success data)]
    /\ w_db (snd result)
       = Effects.purchase_writes userId id server_name plan data
           (e_fault (env (S n)), e_fault (env (S (S n))), e_fault (env (S (S (S n)))))
           (w_db w)
    /\ fst result
       = (if Effects.all_accepted
               (e_fault (env (S n)), e_fault (env (S (S n))),
                e_fault (env (S (S (S n)))))
          then Purchased server_name else PurchaseFailed).

(** Every listing kept in the cache of the gateway is a successful one. *)
Definition only_successes (api : Pterodactyl.Api) : Prop :=
  forall key entry, Pterodactyl.cache api !! key = Some entry ->
    Pterodactyl.sr_success (Pterodactyl.ce_data entry) = true.

(** The answers of the panel that [getUserServers] puts in the cache. *)
Definition kept (remote : Pterodactyl.Listing) : bool :=
  match remote with
  | Pterodactyl.Servers _ | Pterodactyl.NoAttributes => true
  | _ => false
  end.

(** A sequence of [getUserServers] calls on one gateway object: each call
    with the clock at its start, the clock when its answer is stored, what
    the panel would answer, and the user asked for. *)
Definition listings (calls : list (Z * Z * Pterodactyl.Listing * Z))
  (api : Pterodactyl.Api) : Pterodactyl.Api :=
  foldl (fun api c =>
           (Pterodactyl.getUserServers api c.1.1.1 c.1.1.2 c.1.2 c.2).1.2)
        api calls.

End Conditions.

(** ** Further concrete situations *)

Module Cases.
Import Database Async Dashboard Scenario.

(** A verified administrator, and a user who has signed in with the
    password only. *)
Definition admin_session : option Middleware.Session :=
  Some {| Middleware.s_userId := Some 1; Middleware.s_twoFAVerified := true;
          Middleware.s_role := Some "admin" |}.

Definition half_session : option Middleware.Session :=
  Some {| Middleware.s_userId := Some 3; Middleware.s_twoFAVerified := false;
          Middleware.s_role := Some "user" |}.

(** The listing of the panel account 12 is asked for twice, ten seconds
    apart, and the one of the account 14 in between. *)
Definition three_calls : list (Z * Z * Pterodactyl.Listing * Z) :=
  [ (10000, 10250, Pterodactyl.Servers [fresh_server], 12);
    (15000, 15250, Pterodactyl.RequestFailed "timeout", 14);
    (20000, 20250, Pterodactyl.NoRelationships, 12) ].

(** The card that the administrator creates under the code typed as
    [welcome]. *)
Definition welcome : GiftCard :=
  {| gc_code := "WELCOME"; gc_credits := 5%float; gc_max_uses := 10; gc_uses := 0;
     gc_per_user_limit := 1; gc_enabled := 1; gc_expires_at := NoExpiry |}.

Definition store_with_welcome : Db := Admin.with_cards (insert 6 welcome) store.

(** A plan of which a user may hold one instance. *)
Definition solo : Plan :=
  {| p_price := 5%float; p_cpu := 100; p_ram := 1024; p_disk := 2048; p_swap := 0;
     p_io := 500; p_databases := 0; p_backups := 0; p_allocations := 1;
     p_egg_id := 3; p_location_ids := "1";
     p_docker_image := None; p_startup_command := None;
     p_environment_variables := None;
     p_user_limit := 1; p_stock_limit := 0; p_stock_used := 0; p_enabled := 1 |}.

Definition world_with_solo : World :=
  {| w_db := with_plans (insert 8 solo) store; w_panel := [] |}.

(** The plan with its counter at the largest 64-bit integer. *)
Definition store_at_the_brim : Db :=
  with_plans (insert 7 (set_stock_used int64_max basic)) store.

End Cases.

(** * Properties *)

(** ** Numbers *)

Section NumberFacts.


Lemma SFcompare_antisym x y :
  SFcompare y x = option_map CompOpp (SFcompare x y).
Proof.
  destruct x as [sx | sx | | sx mx ex], y as [sy | sy | | sy my ey];
    try reflexivity;
    try (destruct sx; reflexivity);
    try (destruct sy; reflexivity);
    try (destruct sx, sy; reflexivity).
  pose proof (Pos.compare_cont_antisym mx my Eq) as Hm. simpl in Hm.
  simpl. rewrite <- Hm, (Z.compare_antisym ex ey).
  destruct sx, sy, (ex ?= ey); simpl; rewrite ?CompOpp_involutive; reflexivity.
Qed.

Lemma is_nan_spec x : Js.is_nan x = false -> Prim2SF x <> S754_nan.
Proof.
  unfold Js.is_nan. rewrite FloatAxioms.eqb_spec. intros Hx Hnan. rewrite Hnan in Hx. discriminate.
Qed.

Lemma float_ltb_leb x y :
  Js.is_nan x = false -> Js.is_nan y = false ->
  PrimFloat.ltb x y = negb (PrimFloat.leb y x).
Proof.
  intros Hx%is_nan_spec Hy%is_nan_spec. rewrite FloatAxioms.ltb_spec, FloatAxioms.leb_spec.
  unfold SFltb, SFleb. rewrite (SFcompare_antisym (Prim2SF x) (Prim2SF y)).
  destruct (SFcompare (Prim2SF x) (Prim2SF y)) as [[]|] eqn:Hc; try reflexivity.
  exfalso. destruct (Prim2SF x), (Prim2SF y); simpl in Hc; try discriminate; congruence.
Qed.

End NumberFacts.

(** ** The store *)

Section StoreFacts.
Import Database.

Lemma getGiftCard_lookup code db id card :
  getGiftCard code db = Some (id, card) ->
  gift_cards db !! id = Some card /\ gc_code card = code.
Proof.
  unfold getGiftCard. intros Hfind.
  apply fmap_Some in Hfind as [[i [k c]] [Hfind Heq]].
  simpl in Heq. injection Heq as -> ->.
  apply list_find_Some in Hfind as (Hat & Hcode & _).
  split; [| exact Hcode].
  apply elem_of_map_to_list. apply list_elem_of_lookup. eauto.
Qed.

Lemma getGiftCard_stored code db id card :
  gift_cards db !! id = Some card -> gc_code card = code ->
  exists id' card', getGiftCard code db = Some (id', card') /\ gc_code card' = code.
Proof.
  intros Hat Hcode. unfold getGiftCard.
  destruct (list_find (fun row => gc_code (snd row) = code)
              (map_to_list (gift_cards db))) as [[i [k c]]|] eqn:Hfind.
  - exists k, c. split; [reflexivity |].
    apply list_find_Some in Hfind as (_ & Hc & _). exact Hc.
  - exfalso. apply list_find_None in Hfind.
    rewrite Forall_forall in Hfind.
    apply (Hfind (id, card)).
    + apply elem_of_map_to_list. exact Hat.
    + exact Hcode.
Qed.

(** [v + 1] in SQLite adds one or, outside the 64-bit range, nothing, and
    never goes past a bound that [v] is below. *)
Lemma sqlite_add1_cases v : sqlite_add1 v = v + 1 \/ sqlite_add1 v = v.
Proof. unfold sqlite_add1. destruct (is_int64 v); auto. Qed.


Lemma sqlite_add1_below v bound : v < bound -> sqlite_add1 v <= bound.
Proof. intros Hlt. destruct (sqlite_add1_cases v) as [-> | ->]; lia. Qed.

Lemma bump_uses_within_max (cards : gmap Z GiftCard) id card :
  (forall i c, cards !! i = Some c -> gc_uses c <= gc_max_uses c) ->
  cards !! id = Some card -> gc_uses card < gc_max_uses card ->
  forall i c, alter bump_uses id cards !! i = Some c -> gc_uses c <= gc_max_uses c.
Proof.
  intros Hinv Hat Hlt i c. rewrite lookup_alter. case_decide as Hi.
  - subst i. rewrite Hat. simpl. intros [= <-]. simpl.
    apply sqlite_add1_below. exact Hlt.
  - apply Hinv.
Qed.

Lemma bump_stock_within_limit (plans : gmap Z Plan) id plan :
  (forall i p, plans !! i = Some p -> 0 < p_stock_limit p ->
     p_stock_used p <= p_stock_limit p) ->
  plans !! id = Some plan ->
  (0 < p_stock_limit plan -> p_stock_used plan < p_stock_limit plan) ->
  forall i p,
    alter (fun p => set_stock_used (sqlite_add1 (p_stock_used p)) p) id plans !! i = Some p ->
    0 < p_stock_limit p -> p_stock_used p <= p_stock_limit p.
Proof.
  intros Hinv Hat Hlt i p. rewrite lookup_alter. case_decide as Hi.
  - subst i. rewrite Hat. simpl. intros [= <-]. simpl. intros Hlimit.
    apply sqlite_add1_below. auto.
  - apply Hinv.
Qed.

End StoreFacts.

(** ** Handlers *)

Section AsyncFacts.
Import Async.
Context {A : Type} (handler : A).

Lemma step_clock (k : Z -> Prog A) e w : step (Clock k) e w = step (k (e_now e)) e w.
Proof. reflexivity. Qed.

Lemma step_done (p : Prog A) e w : is_Some (response handler p) -> step p e w = (p, w).
Proof. destruct p; simpl; intros [x Hx]; try discriminate; reflexivity. Qed.

(** A request that is scheduled alone does what [run] says: handling
    requests one after another is one of the schedules of [run_sched]. *)
Lemma run_alone (p : Prog A) env n w :
  exists k q,
    run_sched (solo env n k) [p] w = ([q], snd (run p env n w))
    /\ response handler q = Some (fst (caught handler (run p env n w))).
Proof.
  revert n w. induction p as [a | | k IH | R c k IH]; intros n w.
  - exists 0%nat, (Ret a). split; reflexivity.
  - exists 0%nat, Throw. split; reflexivity.
  - destruct (IH (e_now (env n)) n w) as ([| ticks] & q & Hsched & Hq).
    + injection Hsched as <- Hw. exists 1%nat, (k (e_now (env n))). split.
      * cbn [solo run_sched lookup list_lookup]. rewrite step_clock.
        rewrite step_done by (rewrite Hq; eauto). cbn [run]. rewrite <- Hw. reflexivity.
      * exact Hq.
    + exists (S ticks), q. split; [| exact Hq].
      cbn [solo run_sched lookup list_lookup] in *. rewrite step_clock. exact Hsched.
  - destruct (perform c (env n) w) as [[r|] w1] eqn:Hcall.
    + destruct (IH r (S n) w1) as (ticks & q & Hsched & Hq).
      exists (S ticks), q. cbn [solo run_sched lookup list_lookup run].
      unfold step. cbn [settle]. rewrite Hcall. split; assumption.
    + exists 1%nat, Throw. cbn [solo run_sched lookup list_lookup run].
      unfold step. cbn [settle]. rewrite Hcall. split; reflexivity.
Qed.

End AsyncFacts.

(** ** Redemption *)

(** Runs the handler up to the outcome of its next awaited call. *)
Ltac await := cbn [Async.run Async.perform]; unfold Async.read, Async.write, Async.exchange.

Section RedeemFacts.
Import Database Async Dashboard.
Context `{Js.Runtime}.

(** The commit step performs the three writes up to the first one that the
    store rejects, and talks to nobody else. *)
Lemma redeem_commit_world userId id card env n w :
  let w' := snd (run (redeem_commit userId id card) env n w) in
  w_db w' = Effects.redeem_writes userId id card
              (e_fault (env n), e_fault (env (S n)), e_fault (env (S (S n))))
              (w_db w)
  /\ w_panel w' = w_panel w.
Proof.
  unfold redeem_commit, Effects.redeem_writes. await.
  destruct (e_fault (env n)); [split; reflexivity |].
  await.
  destruct (e_fault (env (S n))); [split; reflexivity |].
  await.
  destruct (e_fault (env (S (S n)))); [split; reflexivity |].
  await.
  destruct (e_fault (env (S (S (S n))))); [split; reflexivity |].
  cbn [w_db w_panel].
  destruct (getUserById userId _); split; reflexivity.
Qed.

(** The writes leave the table of cards alone or bump the uses of one card. *)
Lemma redeem_writes_cards userId id card faults db :
  gift_cards (Effects.redeem_writes userId id card faults db) = gift_cards db
  \/ gift_cards (Effects.redeem_writes userId id card faults db)
     = alter bump_uses id (gift_cards db).
Proof.
  destruct faults as [[[] []] []]; simpl; auto.
Qed.

(** A redemption changes the store only through its commit step, which it
    reaches only for a card it has found with a use left. *)
Lemma redeem_world userId code env w :
  let w' := snd (redeem userId code env w) in
  w_panel w' = w_panel w /\
  (w_db w' = w_db w \/
   exists id card faults,
     getGiftCard (Js.toUpperCase code) (w_db w) = Some (id, card) /\
     gc_uses card < gc_max_uses card /\
     w_db w' = Effects.redeem_writes userId id card faults (w_db w)).
Proof.
  unfold redeem, try_catch, redeem_body. await.
  destruct (e_fault (env 0%nat)); [simpl; auto |].
  destruct (getUserById userId (w_db w)) as [user|]; [| simpl; auto].
  await.
  destruct (e_fault (env 1%nat)); [simpl; auto |].
  destruct (getGiftCard (Js.toUpperCase code) (w_db w)) as [[id card]|] eqn:Hcard;
    [| simpl; auto].
  destruct (negb (Js.truthy (gc_enabled card))); [simpl; auto |].
  assert (Hlimits : forall w0, w0 = w ->
    let w' := snd (caught RedeemError (run (redeem_limits userId id user card) env 2%nat w0)) in
    w_panel w' = w_panel w /\
    (w_db w' = w_db w \/
     exists id0 card0 faults,
       Some (id, card) = Some (id0, card0) /\
       gc_uses card0 < gc_max_uses card0 /\
       w_db w' = Effects.redeem_writes userId id0 card0 faults (w_db w))).
  { intros w0 ->. unfold redeem_limits.
    destruct (gc_max_uses card <=? gc_uses card) eqn:Huses; [simpl; auto |].
    apply Z.leb_gt in Huses.
    await.
    destruct (e_fault (env 2%nat)); [simpl; auto |].
    destruct (gc_per_user_limit card <=? _); [simpl; auto |].
    pose proof (redeem_commit_world userId id card env 3%nat w) as [Hdb Hpanel].
    destruct (run (redeem_commit userId id card) env 3%nat w) as [[r|] w1];
      cbn [fst snd] in *; (split; [exact Hpanel |]); right;
      exists id, card; eexists; (split; [reflexivity |]); (split; [exact Huses |]);
      exact Hdb. }
  destruct (gc_expires_at card); cbn [run].
  - apply Hlimits. reflexivity.
  - apply Hlimits. reflexivity.
  - destruct (expired _ _); [simpl; auto |]. apply Hlimits. reflexivity.
Qed.

Lemma redeem_keeps_uses_within_max userId code env w :
  Spec.uses_within_max (w_db w) ->
  Spec.uses_within_max (w_db (snd (redeem userId code env w))).
Proof.
  intros Hinv.
  destruct (redeem_world userId code env w) as [_ [-> | (id & card & faults & Hcard & Hlt & ->)]];
    [exact Hinv |].
  apply getGiftCard_lookup in Hcard as [Hat _].
  unfold Spec.uses_within_max.
  destruct (redeem_writes_cards userId id card faults (w_db w)) as [-> | ->].
  - exact Hinv.
  - eapply bump_uses_within_max; eauto.
Qed.

(** C1 (as amended): redemption attempts that are handled one after
    another keep [uses <= max_uses] on every gift card, whatever the store
    and the clock do; the increment itself is unconditional, it adds one use
    to the card whatever its [max_uses]. *)
Theorem serial_redemptions_keep_uses_within_max requests w :
  Spec.uses_within_max (w_db w) ->
  Spec.uses_within_max (w_db (Effects.redeem_serially requests w))
  /\ forall id card db,
       gift_cards db !! id = Some card ->
       gift_cards (incrementGiftCardUses id db) !! id = Some (bump_uses card).
Proof.
  intros Hinv. split.
  - unfold Effects.redeem_serially. revert w Hinv.
    induction requests as [| [[userId code] env] rest IH]; intros w Hinv; [exact Hinv |].
    simpl. apply IH. apply redeem_keeps_uses_within_max. exact Hinv.
  - intros id card db Hat. simpl. rewrite lookup_alter, decide_True by reflexivity.
    rewrite Hat. reflexivity.
Qed.

End RedeemFacts.

Section RedeemValidation.
Import Database Async Dashboard.
Context `{Js.Runtime}.

Variables (userId : Z) (code : string) (env : nat -> Env) (w : World) (user : User).
Hypothesis reads_succeed :
  e_fault (env 0%nat) = false /\ e_fault (env 1%nat) = false /\ e_fault (env 2%nat) = false.
Hypothesis signed_in : users (w_db w) !! userId = Some user.

Lemma redeem_refused reason :
  let found := getGiftCard (Js.toUpperCase code) (w_db w) in
  Spec.first_failure
    (Spec.redeem_checks (snd <$> found) (e_now (env 2%nat))
       (Spec.prior_redemptions userId (w_db w) found)) = Some reason ->
  redeem userId code env w
  = (RenderRedeem (Js.or_zero (u_credits user)) (Error reason), w).
Proof.
  destruct reads_succeed as (H0 & H1 & H2).
  unfold redeem, try_catch, redeem_body. await.
  rewrite H0. unfold getUserById. rewrite signed_in. await. rewrite H1.
  cbn zeta.
  destruct (getGiftCard (Js.toUpperCase code) (w_db w)) as [[id card]|]; simpl.
  { destruct (Js.truthy (gc_enabled card)); simpl; [| congruence].
    assert (Hlimits :
      (if gc_uses card <? gc_max_uses card
       then if getUserRedemptions userId id (w_db w) <? gc_per_user_limit card
            then None else Some PerUserLimitReached
       else Some UsageLimitReached) = Some reason ->
      caught RedeemError (run (redeem_limits userId id user card) env 2%nat w)
      = (RenderRedeem (Js.or_zero (u_credits user)) (Error reason), w)).
    { unfold redeem_limits. rewrite (Z.leb_antisym (gc_uses card)).
      destruct (gc_uses card <? gc_max_uses card); simpl; [| congruence].
      await. rewrite H2.
      rewrite (Z.leb_antisym (getUserRedemptions userId id (w_db w))).
      destruct (getUserRedemptions userId id (w_db w) <? gc_per_user_limit card);
        simpl; congruence. }
    destruct (gc_expires_at card) as [| | t]; cbn [run expired negb]; try exact Hlimits.
    destruct (t <? e_now (env 2%nat)); simpl; [congruence | exact Hlimits]. }
  congruence.
Qed.

Lemma redeem_accepted id card :
  getGiftCard (Js.toUpperCase code) (w_db w) = Some (id, card) ->
  Spec.first_failure
    (Spec.redeem_checks (Some card) (e_now (env 2%nat))
       (getUserRedemptions userId id (w_db w))) = None ->
  redeem userId code env w
  = caught RedeemError (run (redeem_commit userId id card) env 3%nat w).
Proof.
  destruct reads_succeed as (H0 & H1 & H2). intros Hfound.
  unfold redeem, try_catch, redeem_body. await.
  rewrite H0. unfold getUserById. rewrite signed_in. await. rewrite H1, Hfound.
  cbn zeta. simpl Spec.first_failure.
  destruct (Js.truthy (gc_enabled card)); simpl; [| congruence].
  assert (Hlimits :
    (if gc_uses card <? gc_max_uses card
     then if getUserRedemptions userId id (w_db w) <? gc_per_user_limit card
          then None else Some PerUserLimitReached
     else Some UsageLimitReached) = None ->
    caught RedeemError (run (redeem_limits userId id user card) env 2%nat w)
    = caught RedeemError (run (redeem_commit userId id card) env 3%nat w)).
  { unfold redeem_limits. rewrite (Z.leb_antisym (gc_uses card)).
    destruct (gc_uses card <? gc_max_uses card); simpl; [| congruence].
    cbn [run perform]. unfold read at 1. rewrite H2.
    rewrite (Z.leb_antisym (getUserRedemptions userId id (w_db w))).
    destruct (getUserRedemptions userId id (w_db w) <? gc_per_user_limit card);
      simpl; congruence. }
  destruct (gc_expires_at card) as [| | t]; cbn [run expired negb]; intros Hc.
  - apply Hlimits, Hc.
  - apply Hlimits, Hc.
  - destruct (t <? e_now (env 2%nat)); simpl in Hc; [congruence |].
    apply Hlimits, Hc.
Qed.

End RedeemValidation.

Section RedeemProperties.
Import Database Async Dashboard.
Context `{Js.Runtime}.

(** C6: the checks of a redemption are made in the order of the
    specification and the first one that fails decides: the route answers
    with the reason of that check and leaves the store and the panel
    untouched; the five reasons are pairwise distinct.  The signed-in user
    exists and the store answers the reads; the clock is read before the
    third awaited call, hence [e_now (env 2)]. *)
Theorem redeem_validation_order userId code env w user reason :
  e_fault (env 0%nat) = false /\ e_fault (env 1%nat) = false /\ e_fault (env 2%nat) = false ->
  users (w_db w) !! userId = Some user ->
  let found := getGiftCard (Js.toUpperCase code) (w_db w) in
  Spec.first_failure
    (Spec.redeem_checks (snd <$> found) (e_now (env 2%nat))
       (Spec.prior_redemptions userId (w_db w) found)) = Some reason ->
  redeem userId code env w
  = (RenderRedeem (Js.or_zero (u_credits user)) (Error reason), w)
  /\ NoDup [InvalidCode; CardDisabled; CardExpired; UsageLimitReached;
            PerUserLimitReached].
Proof.
  intros Hreads Huser found Hfail. split.
  - apply redeem_refused; assumption.
  - repeat (apply NoDup_cons_2;
              [rewrite ?elem_of_cons, elem_of_nil; intuition discriminate |]).
    apply NoDup_nil_2.
Qed.

(** What the commit step answers is never the report of a failed check. *)
Lemma redeem_commit_response userId id card env n w credits msg :
  fst (caught RedeemError (run (redeem_commit userId id card) env n w))
  <> RenderRedeem credits (Error msg).
Proof.
  unfold redeem_commit. await.
  destruct (e_fault (env n)); [discriminate |]. await.
  destruct (e_fault (env (S n))); [discriminate |]. await.
  destruct (e_fault (env (S (S n)))); [discriminate |]. await.
  destruct (e_fault (env (S (S (S n))))); [discriminate |].
  destruct (getUserById userId _); simpl; discriminate.
Qed.

Lemma first_failure_of_found card now prior reason :
  Spec.first_failure (Spec.redeem_checks (Some card) now prior) = Some reason ->
  reason <> InvalidCode.
Proof.
  simpl.
  repeat match goal with
         | |- context [if ?b then _ else _] => destruct b
         end; intros [= <-]; discriminate.
Qed.

(** C8 (as amended): the code typed by the user is upper-cased, and not
    trimmed, before it is looked up.  The route answers alike for two texts
    with the same upper-case form; a text whose upper-case form is the code
    of a stored card finds a card with that code and is not reported as
    invalid; and nothing is removed from the text: the code looked up for
    an ASCII text is as long as the text, white space included. *)
Theorem redeem_looks_up_upper_case userId code env w user id card :
  e_fault (env 0%nat) = false /\ e_fault (env 1%nat) = false /\ e_fault (env 2%nat) = false ->
  users (w_db w) !! userId = Some user ->
  gift_cards (w_db w) !! id = Some card ->
  Js.toUpperCase code = gc_code card ->
  (forall other, Js.toUpperCase other = Js.toUpperCase code ->
     redeem userId other env w = redeem userId code env w)
  /\ (exists id' card',
        getGiftCard (Js.toUpperCase code) (w_db w) = Some (id', card')
        /\ gc_code card' = gc_code card)
  /\ (forall credits,
        fst (redeem userId code env w) <> RenderRedeem credits (Error InvalidCode))
  /\ (Js.is_ascii_text code = true ->
      String.length (Js.toUpperCase code) = String.length code).
Proof.
  intros Hreads Huser Hat Hcode.
  destruct (getGiftCard_stored (Js.toUpperCase code) (w_db w) id card Hat (eq_sym Hcode))
    as (id' & card' & Hfound & Hcode').
  split; [| split; [| split]].
  - intros other Hother. unfold redeem, redeem_body. rewrite Hother. reflexivity.
  - exists id', card'. split; [exact Hfound | congruence].
  - intros credits.
    destruct (Spec.first_failure
                (Spec.redeem_checks (Some card') (e_now (env 2%nat))
                   (getUserRedemptions userId id' (w_db w)))) as [reason|] eqn:Hchecks.
    + pose proof (first_failure_of_found _ _ _ _ Hchecks) as Hne.
      rewrite (redeem_refused userId code env w user Hreads Huser reason).
      * simpl. congruence.
      * rewrite Hfound. exact Hchecks.
    + rewrite (redeem_accepted userId code env w user Hreads Huser id' card' Hfound Hchecks).
      apply redeem_commit_response.
  - intros Hascii. rewrite (Js.toUpperCase_ascii code Hascii).
    clear. induction code as [| c rest IH]; simpl; [reflexivity | now rewrite IH].
Qed.

(** C2 (as amended): when the five checks pass, the three writes are issued
    as three statements, one after the other: each takes effect unless the
    store rejects it, the first rejection ends the request with the error
    redirect and leaves the writes made before it in place.  When none is
    rejected all three are in effect; the route then reads the row of the
    user once more, and reports the new balance and the amount credited if
    that read is answered, and ends with the error redirect, the three
    writes in effect, if it is rejected. *)
Theorem redeem_commits_statement_by_statement userId code env w user id card :
  e_fault (env 0%nat) = false /\ e_fault (env 1%nat) = false /\ e_fault (env 2%nat) = false ->
  users (w_db w) !! userId = Some user ->
  getGiftCard (Js.toUpperCase code) (w_db w) = Some (id, card) ->
  Spec.first_failure
    (Spec.redeem_checks (Some card) (e_now (env 2%nat))
       (getUserRedemptions userId id (w_db w))) = None ->
  let faults := (e_fault (env 3%nat), e_fault (env 4%nat), e_fault (env 5%nat)) in
  let result := redeem userId code env w in
  w_db (snd result) = Effects.redeem_writes userId id card faults (w_db w)
  /\ (faults <> (false, false, false) -> fst result = RedeemError)
  /\ (faults = (false, false, false) ->
      fst result
      = if e_fault (env 6%nat) then RedeemError
        else RenderRedeem (Js.or_zero (PrimFloat.add (u_credits user) (gc_credits card)))
                          (Redeemed (gc_credits card))).
Proof.
  intros Hreads Huser Hfound Hchecks faults result. subst faults result.
  rewrite (redeem_accepted userId code env w user Hreads Huser id card Hfound Hchecks).
  pose proof (redeem_commit_world userId id card env 3%nat w) as [Hdb _].
  split; [| split].
  - destruct (run (redeem_commit userId id card) env 3%nat w) as [[r|] w1]; exact Hdb.
  - clear Hdb. unfold redeem_commit. await.
    destruct (e_fault (env 3%nat)); [reflexivity |]. await.
    destruct (e_fault (env 4%nat)); [reflexivity |]. await.
    destruct (e_fault (env 5%nat)); [reflexivity |]. congruence.
  - clear Hdb. intros [= H3 H4 H5]. unfold redeem_commit. await.
    rewrite H3. await. rewrite H4. await. rewrite H5. await.
    destruct (e_fault (env 6%nat)); [reflexivity |].
    unfold getUserById. cbn [w_db users redeemGiftCard incrementGiftCardUses updateUserCredits].
    rewrite lookup_alter, decide_True by reflexivity.
    rewrite Huser. reflexivity.
Qed.

End RedeemProperties.

Section RedeemSituations.
Import Database Async Dashboard Scenario.

Lemma store_uses_within_max : Spec.uses_within_max store.
Proof.
  intros id card. unfold store; cbn [gift_cards].
  rewrite lookup_insert. case_decide; [| rewrite lookup_empty; discriminate].
  intros [= <-]. simpl. lia.
Qed.

(** C1 fails on the code: Alice and Bob redeem [SAVE10], which has one use
    left, and their requests take turns at every [await].  Both read
    [uses = 0], both are credited, and the card ends with [uses = 2] over
    [max_uses = 1]. *)
Lemma interleaved_redemptions_exceed_max_uses :
  Spec.uses_within_max (w_db world) /\
  let result :=
    run_sched (alternating 7) [redeem_body 1 "SAVE10"; redeem_body 2 "SAVE10"] world in
  response RedeemError <$> fst result
  = [Some (RenderRedeem 10%float (Redeemed 10%float));
     Some (RenderRedeem 30%float (Redeemed 10%float))]
  /\ gift_cards (w_db (snd result)) !! 5 = Some (bump_uses (bump_uses save10))
  /\ ~ Spec.uses_within_max (w_db (snd result)).
Proof.
  split; [exact store_uses_within_max |].
  assert (Hcard :
    gift_cards (w_db (snd (run_sched (alternating 7)
       [redeem_body 1 "SAVE10"; redeem_body 2 "SAVE10"] world))) !! 5
    = Some (bump_uses (bump_uses save10))) by (vm_compute; reflexivity).
  cbv zeta. split; [vm_compute; reflexivity |]. split; [exact Hcard |].
  intros Hinv. specialize (Hinv 5 _ Hcard). vm_compute in Hinv. apply Hinv. reflexivity.
Qed.

Lemma serial_redemptions_keep_uses_within_max_witness :
  Spec.uses_within_max
    (w_db (Effects.redeem_serially
             [(1, "SAVE10", fun _ => calm); (2, "SAVE10", fun _ => calm)] world))
  /\ forall id card db,
       gift_cards db !! id = Some card ->
       gift_cards (incrementGiftCardUses id db) !! id = Some (bump_uses card).
Proof.
  apply (serial_redemptions_keep_uses_within_max
           [(1, "SAVE10", fun _ => calm); (2, "SAVE10", fun _ => calm)] world).
  exact store_uses_within_max.
Defined.

(** C2 fails on the code: Alice redeems [SAVE10], every check passes, and
    the store rejects the second write.  The request ends with the error
    redirect, yet Alice keeps the 10 credits while the card still has
    [uses = 0] and no redemption is recorded. *)
Lemma rejected_increment_leaves_credit :
  let result := redeem 1 "SAVE10" (failing_at 4) world in
  Spec.first_failure (Spec.redeem_checks (Some save10) 1000 0) = None
  /\ fst result = RedeemError
  /\ u_credits <$> users (w_db (snd result)) !! 1 = Some 10%float
  /\ gc_uses <$> gift_cards (w_db (snd result)) !! 5 = Some 0
  /\ gift_card_redemptions (w_db (snd result)) = [].
Proof.
  cbv zeta. repeat split; vm_compute; reflexivity.
Qed.

Lemma redeem_commits_statement_by_statement_witness :
  (let env := failing_at 4 in
   let faults := (e_fault (env 3%nat), e_fault (env 4%nat), e_fault (env 5%nat)) in
   let result := redeem 1 "save10" env world in
   w_db (snd result) = Effects.redeem_writes 1 5 save10 faults (w_db world)
   /\ (faults <> (false, false, false) -> fst result = RedeemError)
   /\ (faults = (false, false, false) ->
       fst result
       = if e_fault (env 6%nat) then RedeemError
         else RenderRedeem (Js.or_zero (PrimFloat.add (u_credits alice) (gc_credits save10)))
                           (Redeemed (gc_credits save10))))
  /\ (let env := failing_at 6 in
      let faults := (e_fault (env 3%nat), e_fault (env 4%nat), e_fault (env 5%nat)) in
      let result := redeem 1 "save10" env world in
      w_db (snd result) = Effects.redeem_writes 1 5 save10 faults (w_db world)
      /\ (faults <> (false, false, false) -> fst result = RedeemError)
      /\ (faults = (false, false, false) ->
          fst result
          = if e_fault (env 6%nat) then RedeemError
            else RenderRedeem (Js.or_zero (PrimFloat.add (u_credits alice) (gc_credits save10)))
                              (Redeemed (gc_credits save10)))).
Proof.
  split.
  - apply (redeem_commits_statement_by_statement 1 "save10" (failing_at 4) world alice 5 save10).
    + repeat split; reflexivity.
    + reflexivity.
    + vm_compute; reflexivity.
    + vm_compute; reflexivity.
  - apply (redeem_commits_statement_by_statement 1 "save10" (failing_at 6) world alice 5 save10).
    + repeat split; reflexivity.
    + reflexivity.
    + vm_compute; reflexivity.
    + vm_compute; reflexivity.
Defined.

(** A rejected read after the writes: Alice redeems [SAVE10], the three
    writes are accepted and the read of her row that follows is rejected.
    She is shown the error redirect, holds the 10 credits, and the card and
    the redemption record show the use. *)
Example rejected_read_hides_success :
  let result := redeem 1 "SAVE10" (failing_at 6) world in
  fst result = RedeemError
  /\ u_credits <$> users (w_db (snd result)) !! 1 = Some 10%float
  /\ gc_uses <$> gift_cards (w_db (snd result)) !! 5 = Some 1
  /\ length (gift_card_redemptions (w_db (snd result))) = 1%nat.
Proof.
  cbv zeta. repeat split; vm_compute; reflexivity.
Qed.

Lemma redeem_validation_order_witness :
  (redeem 1 "lapsed" (fun _ => calm) ledger
   = (RenderRedeem (Js.or_zero (u_credits alice)) (Error CardDisabled), ledger)
   /\ NoDup [InvalidCode; CardDisabled; CardExpired; UsageLimitReached;
             PerUserLimitReached])
  /\ (redeem 1 "old" (fun _ => calm) ledger
      = (RenderRedeem (Js.or_zero (u_credits alice)) (Error CardExpired), ledger)
      /\ NoDup [InvalidCode; CardDisabled; CardExpired; UsageLimitReached;
                PerUserLimitReached])
  /\ (redeem 1 "used" (fun _ => calm) ledger
      = (RenderRedeem (Js.or_zero (u_credits alice)) (Error UsageLimitReached), ledger)
      /\ NoDup [InvalidCode; CardDisabled; CardExpired; UsageLimitReached;
                PerUserLimitReached])
  /\ (redeem 1 "once" (fun _ => calm) ledger
      = (RenderRedeem (Js.or_zero (u_credits alice)) (Error PerUserLimitReached), ledger)
      /\ NoDup [InvalidCode; CardDisabled; CardExpired; UsageLimitReached;
                PerUserLimitReached])
  /\ (redeem 1 "nope" (fun _ => calm) ledger
      = (RenderRedeem (Js.or_zero (u_credits alice)) (Error InvalidCode), ledger)
      /\ NoDup [InvalidCode; CardDisabled; CardExpired; UsageLimitReached;
                PerUserLimitReached]).
Proof.
  split; [| split; [| split; [| split]]].
  - apply (redeem_validation_order 1 "lapsed" (fun _ => calm) ledger alice CardDisabled);
      [repeat split; reflexivity | reflexivity | vm_compute; reflexivity].
  - apply (redeem_validation_order 1 "old" (fun _ => calm) ledger alice CardExpired);
      [repeat split; reflexivity | reflexivity | vm_compute; reflexivity].
  - apply (redeem_validation_order 1 "used" (fun _ => calm) ledger alice UsageLimitReached);
      [repeat split; reflexivity | reflexivity | vm_compute; reflexivity].
  - apply (redeem_validation_order 1 "once" (fun _ => calm) ledger alice PerUserLimitReached);
      [repeat split; reflexivity | reflexivity | vm_compute; reflexivity].
  - apply (redeem_validation_order 1 "nope" (fun _ => calm) ledger alice InvalidCode);
      [repeat split; reflexivity | reflexivity | vm_compute; reflexivity].
Defined.

(** C8 fails on the code: a leading blank is not removed.  The card
    [SAVE10] is stored and the normal form of [" save10"] is [SAVE10], but
    the route looks up [" SAVE10"] and reports an invalid code. *)
Lemma untrimmed_code_is_not_found :
  gift_cards store !! 5 = Some save10
  /\ Spec.normalize " save10" = gc_code save10
  /\ getGiftCard (Spec.normalize " save10") store = Some (5, save10)
  /\ fst (redeem 1 " save10" (fun _ => calm) world)
     = RenderRedeem 0%float (Error InvalidCode).
Proof.
  repeat split; vm_compute; reflexivity.
Qed.

Lemma redeem_looks_up_upper_case_witness :
  (forall other, Js.toUpperCase other = Js.toUpperCase "Save10" ->
     redeem 1 other (fun _ => calm) world = redeem 1 "Save10" (fun _ => calm) world)
  /\ (exists id' card',
        getGiftCard (Js.toUpperCase "Save10") (w_db world) = Some (id', card')
        /\ gc_code card' = gc_code save10)
  /\ (forall credits,
        fst (redeem 1 "Save10" (fun _ => calm) world)
        <> RenderRedeem credits (Error InvalidCode))
  /\ (Js.is_ascii_text "Save10" = true ->
      String.length (Js.toUpperCase "Save10") = String.length "Save10").
Proof.
  apply (redeem_looks_up_upper_case 1 "Save10" (fun _ => calm) world alice 5 save10).
  - repeat split; reflexivity.
  - reflexivity.
  - reflexivity.
  - reflexivity.
Defined.

End RedeemSituations.

(** ** Purchase *)

Section PurchaseFacts.
Import Database Async Dashboard.
Context `{Js.Runtime}.

(** The commit step performs the three writes up to the first one that the
    store rejects; it redirects to the dashboard when none is rejected. *)
Lemma purchase_commit_world userId plan_id server_name plan data env n w :
  let faults := (e_fault (env n), e_fault (env (S n)), e_fault (env (S (S n)))) in
  let result :=
    caught PurchaseFailed
      (run (purchase_commit userId plan_id server_name plan data) env n w) in
  w_db (snd result)
  = Effects.purchase_writes userId plan_id server_name plan data faults (w_db w)
  /\ w_panel (snd result) = w_panel w
  /\ fst result = if Effects.all_accepted faults then Purchased server_name else PurchaseFailed.
Proof.
  unfold purchase_commit, Effects.purchase_writes, Effects.all_accepted. await.
  destruct (e_fault (env n)); [repeat split |]. await.
  destruct (e_fault (env (S n))); [repeat split |]. await.
  destruct (e_fault (env (S (S n)))); repeat split.
Qed.

Lemma purchase_account_ends userId plan_id server_name user plan env n w :
  PrimFloat.ltb (u_credits user) (p_price plan) = false ->
  (0 < p_stock_limit plan -> p_stock_used plan < p_stock_limit plan) ->
  Effects.purchase_ends userId plan_id server_name user plan w
    (caught PurchaseFailed
       (run (purchase_account userId plan_id server_name user plan) env n w)).
Proof.
  intros Hcredits Hstock.
  assert (Hcreate :
    Effects.purchase_ends userId plan_id server_name user plan w
      (caught PurchaseFailed
         (run (Await (PteroCreateUser (u_email user)) (fun pteroUser =>
               if Pterodactyl.success pteroUser then Throw
               else Ret (RedirectMsg instances "error" ProvisioningAccountFailed)))
              env n w))).
  { right; left. exists (e_createUser (env n)). await.
    destruct (e_createUser (env n)); repeat split. }
  unfold purchase_account.
  destruct (u_pterodactyl_id user) as [pterodactyl_id|]; [| exact Hcreate].
  destruct (Js.truthy pterodactyl_id); [| exact Hcreate].
  unfold purchase_create. await.
  destruct (e_createServer (env n)) as [data | error].
  - right; right; right.
    set (w1 := {| w_db := w_db w; w_panel := w_panel w ++ _ |}).
    pose proof (purchase_commit_world userId plan_id server_name plan data env (S n) w1)
      as (Hdb & Hpanel & Hresponse).
    exists pterodactyl_id, data. eexists. repeat split; eauto.
  - right; right; left. exists pterodactyl_id, error. repeat split.
Qed.

Lemma purchase_stock_ends userId plan_id server_name user plan env n w :
  PrimFloat.ltb (u_credits user) (p_price plan) = false ->
  Effects.purchase_ends userId plan_id server_name user plan w
    (caught PurchaseFailed
       (run (purchase_stock userId plan_id server_name user plan) env n w)).
Proof.
  intros Hcredits. unfold purchase_stock.
  destruct ((0 <? p_stock_limit plan) && (p_stock_limit plan <=? p_stock_used plan))
    eqn:Hfull.
  - left. split; [reflexivity | discriminate].
  - apply purchase_account_ends; [exact Hcredits |].
    intros Hlimit. apply andb_false_iff in Hfull as [Hfull | Hfull].
    + apply Z.ltb_ge in Hfull. lia.
    + apply Z.leb_gt in Hfull. exact Hfull.
Qed.

(** Every purchase ends in one of the four ways; when it goes beyond the
    checks, the user and the plan are the rows read at its start. *)
Lemma purchase_cases userId plan_id server_name env w :
  let result := purchase userId plan_id server_name env w in
  (snd result = w /\ fst result <> Purchased server_name)
  \/ exists id user plan,
       plan_id = Some id
       /\ users (w_db w) !! userId = Some user
       /\ server_plans (w_db w) !! id = Some plan
       /\ Effects.purchase_ends userId id server_name user plan w result.
Proof.
  unfold purchase, try_catch, purchase_body. await.
  destruct (e_fault (env 0%nat)); [left; split; [reflexivity | discriminate] |].
  destruct (getUserById userId (w_db w)) as [user|] eqn:Huser;
    [| left; split; [reflexivity | discriminate]].
  destruct plan_id as [id|]; [| left; split; [reflexivity | discriminate]].
  destruct (Js.truthy_str (Some server_name));
    [| left; split; [reflexivity | discriminate]].
  await.
  destruct (e_fault (env 1%nat)); [left; split; [reflexivity | discriminate] |].
  destruct (getPlanById id (w_db w)) as [plan|] eqn:Hplan;
    [| left; split; [reflexivity | discriminate]].
  destruct (negb (Js.truthy (p_enabled plan)));
    [left; split; [reflexivity | discriminate] |].
  destruct (PrimFloat.ltb (u_credits user) (p_price plan)) eqn:Hcredits;
    [left; split; [reflexivity | discriminate] |].
  destruct (0 <? p_user_limit plan).
  - await.
    destruct (e_fault (env 2%nat)); [left; split; [reflexivity | discriminate] |].
    destruct (p_user_limit plan <=? _);
      [left; split; [reflexivity | discriminate] |].
    right. exists id, user, plan. repeat split; try assumption.
    apply purchase_stock_ends. exact Hcredits.
  - right. exists id, user, plan. repeat split; try assumption.
    apply purchase_stock_ends. exact Hcredits.
Qed.

End PurchaseFacts.

Section PurchaseProperties.
Import Database Async Dashboard.
Context `{Js.Runtime}.

Lemma purchase_writes_plans userId plan_id server_name plan data faults db :
  server_plans (Effects.purchase_writes userId plan_id server_name plan data faults db)
  = server_plans db
  \/ server_plans (Effects.purchase_writes userId plan_id server_name plan data faults db)
     = alter (fun p => set_stock_used (sqlite_add1 (p_stock_used p)) p) plan_id (server_plans db).
Proof.
  destruct faults as [[[] []] []]; simpl; auto.
Qed.

Lemma purchase_keeps_stock_within_limit userId plan_id server_name env w :
  Spec.stock_within_limit (w_db w) ->
  Spec.stock_within_limit (w_db (snd (purchase userId plan_id server_name env w))).
Proof.
  intros Hinv.
  destruct (purchase_cases userId plan_id server_name env w)
    as [[-> _] | (id & user & plan & -> & Huser & Hplan & Hends)]; [exact Hinv |].
  destruct Hends as [[-> _] | [(answer & -> & _) | [(p & e & -> & _) | Hwritten]]];
    try exact Hinv.
  destruct Hwritten as (p & data & faults & _ & Hstock & _ & -> & _).
  unfold Spec.stock_within_limit.
  destruct (purchase_writes_plans userId id server_name plan data faults (w_db w))
    as [-> | ->]; [exact Hinv |].
  eapply bump_stock_within_limit; eauto.
Qed.

(** C3 (as amended): purchase attempts that are handled one after another
    keep [stock_used <= stock_limit] on every plan with a stock limit,
    whatever the store and the panel do; the increment itself is
    unconditional, it is SQLite's [stock_used + 1] whatever the limit. *)
Theorem serial_purchases_keep_stock_within_limit requests w :
  Spec.stock_within_limit (w_db w) ->
  Spec.stock_within_limit (w_db (Effects.purchase_serially requests w))
  /\ forall id plan db,
       server_plans db !! id = Some plan ->
       server_plans (incrementPlanStock id db) !! id
       = Some (set_stock_used (sqlite_add1 (p_stock_used plan)) plan).
Proof.
  intros Hinv. split.
  - unfold Effects.purchase_serially. revert w Hinv.
    induction requests as [| [[[userId plan_id] server_name] env] rest IH];
      intros w Hinv; [exact Hinv |].
    simpl. apply IH. apply purchase_keeps_stock_within_limit. exact Hinv.
  - intros id plan db Hat. simpl. rewrite lookup_alter, decide_True by reflexivity.
    rewrite Hat. reflexivity.
Qed.

Lemma new_exchanges_same w : Effects.new_exchanges w w = [].
Proof. unfold Effects.new_exchanges. apply drop_all. Qed.

Lemma new_exchanges_one w w' x :
  w_panel w' = w_panel w ++ [x] -> Effects.new_exchanges w w' = [x].
Proof. unfold Effects.new_exchanges. intros ->. apply drop_app_length. Qed.

(** C4: when the panel refuses to create the server, the route answers
    [ProvisioningInstanceFailed] with the error of the panel; the credits of
    every user, the plans with their [stock_used] and the instance records
    are as before, and so is the rest of the store, up to the panel account
    noted on a user. *)
Theorem refused_server_changes_nothing userId plan_id server_name env w data error :
  let result := purchase userId plan_id server_name env w in
  Pterodactyl.CreateServer data (Pterodactyl.Failure error)
    ∈ Effects.new_exchanges w (snd result) ->
  fst result = RedirectMsg instances "error" (ProvisioningInstanceFailed error)
  /\ (forall id, u_credits <$> users (w_db (snd result)) !! id
                 = u_credits <$> users (w_db w) !! id)
  /\ server_plans (w_db (snd result)) = server_plans (w_db w)
  /\ user_servers (w_db (snd result)) = user_servers (w_db w)
  /\ (forall id, u_email <$> users (w_db (snd result)) !! id
                 = u_email <$> users (w_db w) !! id)
  /\ gift_cards (w_db (snd result)) = gift_cards (w_db w)
  /\ gift_card_redemptions (w_db (snd result)) = gift_card_redemptions (w_db w).
Proof.
  intros result Hsent. subst result.
  destruct (purchase_cases userId plan_id server_name env w)
    as [[Hw _] | (id & user & plan & -> & Huser & Hplan & Hends)].
  { rewrite Hw, new_exchanges_same in Hsent. apply elem_of_nil in Hsent. contradiction. }
  destruct Hends as [[Hw _] | [(answer & _ & Hpanel & _) | [Hrefused | Hwritten]]].
  - rewrite Hw, new_exchanges_same in Hsent. apply elem_of_nil in Hsent. contradiction.
  - rewrite (new_exchanges_one _ _ _ Hpanel) in Hsent.
    apply list_elem_of_singleton in Hsent. discriminate.
  - destruct Hrefused as (p & e & Hdb & Hpanel & Hresponse).
    rewrite (new_exchanges_one _ _ _ Hpanel) in Hsent.
    apply list_elem_of_singleton in Hsent. injection Hsent as _ ->.
    rewrite Hdb. repeat split; auto.
  - destruct Hwritten as (p & d & faults & _ & _ & Hpanel & _).
    rewrite (new_exchanges_one _ _ _ Hpanel) in Hsent.
    apply list_elem_of_singleton in Hsent. discriminate.
Qed.


End PurchaseProperties.

Section PurchaseValidation.
Import Database Async Dashboard.
Context `{Js.Runtime}.

Variables (userId id : Z) (server_name : string) (env : nat -> Env) (w : World)
  (user : User).
Hypothesis reads_succeed :
  e_fault (env 0%nat) = false /\ e_fault (env 1%nat) = false /\ e_fault (env 2%nat) = false.
Hypothesis signed_in : users (w_db w) !! userId = Some user.
Hypothesis named : Js.truthy_str (Some server_name) = true.
Hypothesis balance_is_a_number : Js.is_nan (u_credits user) = false.
Hypothesis price_is_a_number :
  forall plan, server_plans (w_db w) !! id = Some plan -> Js.is_nan (p_price plan) = false.

(** The checks of a purchase, and where the route goes on when they pass. *)
Lemma purchase_validation :
  purchase userId (Some id) server_name env w
  = match Spec.first_failure
            (Spec.purchase_checks (server_plans (w_db w) !! id) (u_credits user)
               (getUserServerCount userId id (w_db w))),
          server_plans (w_db w) !! id with
    | Some reason, _ => (RedirectMsg instances "error" reason, w)
    | None, Some plan =>
        caught PurchaseFailed
          (run (purchase_account userId id server_name user plan) env
               (if 0 <? p_user_limit plan then 3%nat else 2%nat) w)
    | None, None => (PurchaseFailed, w)
    end.
Proof.
  destruct reads_succeed as (H0 & H1 & H2).
  unfold purchase, try_catch, purchase_body. await.
  rewrite H0. unfold getUserById. rewrite signed_in, named. await. rewrite H1.
  unfold getPlanById.
  destruct (server_plans (w_db w) !! id) as [plan|] eqn:Hplan; [| reflexivity].
  cbn [Spec.purchase_checks Spec.first_failure].
  destruct (Js.truthy (p_enabled plan)); [| reflexivity]. cbn [negb].
  rewrite (float_ltb_leb _ _ balance_is_a_number (price_is_a_number plan eq_refl)).
  destruct (PrimFloat.leb (p_price plan) (u_credits user)); [| reflexivity]. cbn [negb].
  assert (Hstock : forall n,
    caught PurchaseFailed (run (purchase_stock userId id server_name user plan) env n w)
    = match (if negb (0 <? p_stock_limit plan)
                || (p_stock_used plan <? p_stock_limit plan)
             then None else Some OutOfStock) with
      | Some reason => (RedirectMsg instances "error" reason, w)
      | None =>
          caught PurchaseFailed
            (run (purchase_account userId id server_name user plan) env n w)
      end).
  { intros n. unfold purchase_stock. rewrite (Z.leb_antisym (p_stock_used plan)).
    destruct (0 <? p_stock_limit plan); [| reflexivity].
    destruct (p_stock_used plan <? p_stock_limit plan); reflexivity. }
  destruct (0 <? p_user_limit plan); cbn [negb orb].
  - await. rewrite H2. rewrite (Z.leb_antisym (getUserServerCount userId id (w_db w))).
    destruct (getUserServerCount userId id (w_db w) <? p_user_limit plan); cbn [negb];
      [| reflexivity].
    rewrite Hstock. destruct (negb _ || _); reflexivity.
  - rewrite Hstock. destruct (negb _ || _); reflexivity.
Qed.

End PurchaseValidation.

Section PurchaseOrder.
Import Database Async Dashboard.
Context `{Js.Runtime}.

(** C7: the checks of a purchase are made in the order of the
    specification and the first one that fails decides: the route answers
    with the reason of that check and neither the store nor the panel has
    been touched.  In particular a balance below the price of an available
    plan yields [InsufficientCredits] before anything is sent to the panel.
    The fields of the request are filled in, the signed-in user exists, the
    store answers the reads, and balance and price are numbers (a [REAL]
    column holds no NaN). *)
Theorem purchase_validation_order userId id server_name env w user :
  e_fault (env 0%nat) = false /\ e_fault (env 1%nat) = false /\ e_fault (env 2%nat) = false ->
  users (w_db w) !! userId = Some user ->
  Js.truthy_str (Some server_name) = true ->
  Js.is_nan (u_credits user) = false ->
  (forall plan, server_plans (w_db w) !! id = Some plan -> Js.is_nan (p_price plan) = false) ->
  let result := purchase userId (Some id) server_name env w in
  (forall reason,
     Spec.first_failure
       (Spec.purchase_checks (server_plans (w_db w) !! id) (u_credits user)
          (getUserServerCount userId id (w_db w))) = Some reason ->
     result = (RedirectMsg instances "error" reason, w))
  /\ (forall plan,
        server_plans (w_db w) !! id = Some plan ->
        Js.truthy (p_enabled plan) = true ->
        PrimFloat.ltb (u_credits user) (p_price plan) = true ->
        fst result = RedirectMsg instances "error" InsufficientCredits
        /\ Effects.new_exchanges w (snd result) = []
        /\ w_db (snd result) = w_db w).
Proof.
  intros Hreads Huser Hname Hbalance Hprice result. subst result.
  rewrite (purchase_validation userId id server_name env w user
             Hreads Huser Hname Hbalance Hprice).
  split.
  - intros reason ->. reflexivity.
  - intros plan Hplan Henabled Hbelow. rewrite Hplan.
    cbn [Spec.purchase_checks Spec.first_failure]. rewrite Henabled.
    rewrite (float_ltb_leb _ _ Hbalance (Hprice plan Hplan)) in Hbelow.
    apply negb_true_iff in Hbelow. rewrite Hbelow.
    cbn [fst snd]. rewrite new_exchanges_same. repeat split.
Qed.

(** C10: a plan whose environment column holds a text that is not JSON can
    be bought all the same: the request sent to the panel carries the empty
    object as its environment, and when the panel creates the server the
    purchase succeeds. *)
Theorem unparsable_environment_is_sent_empty
  userId id server_name env w user plan text pterodactyl_id data :
  p_environment_variables plan = Some text ->
  Js.JSON_parses text = false ->
  (forall n, e_fault (env n) = false) ->
  (forall n, e_createServer (env n) = Pterodactyl.Success data) ->
  users (w_db w) !! userId = Some user ->
  u_pterodactyl_id user = Some pterodactyl_id ->
  Js.truthy pterodactyl_id = true ->
  server_plans (w_db w) !! id = Some plan ->
  Js.truthy_str (Some server_name) = true ->
  Js.is_nan (u_credits user) = false ->
  Js.is_nan (p_price plan) = false ->
  Spec.first_failure
    (Spec.purchase_checks (Some plan) (u_credits user)
       (getUserServerCount userId id (w_db w))) = None ->
  let result := purchase userId (Some id) server_name env w in
  fst result = Purchased server_name
  /\ exists request,
       Effects.new_exchanges w (snd result)
       = [Pterodactyl.CreateServer request (Pterodactyl.Success data)]
       /\ Pterodactyl.sd_environment request = Js.EmptyObject.
Proof.
  intros Htext Hjson Hstore Hpanel Huser Haccount Hlinked Hplan Hname Hbalance Hprice
    Hchecks result. subst result.
  rewrite (purchase_validation userId id server_name env w user); auto.
  2: { intros plan'. rewrite Hplan. intros [= <-]. exact Hprice. }
  rewrite Hplan, Hchecks.
  set (n := if 0 <? p_user_limit plan then 3%nat else 2%nat).
  unfold purchase_account. rewrite Haccount, Hlinked.
  unfold purchase_create. await. rewrite Hpanel.
  set (w1 := {| w_db := w_db w; w_panel := _ |}).
  pose proof (purchase_commit_world userId id server_name plan data env (S n) w1)
    as (_ & Hsent & Hresponse).
  rewrite !Hstore in Hresponse. simpl in Hresponse.
  split; [exact Hresponse |].
  exists (serverData server_name pterodactyl_id plan). split.
  - apply new_exchanges_one. exact Hsent.
  - simpl. unfold environment. rewrite Htext.
    destruct text; [reflexivity |]. rewrite Hjson. reflexivity.
Qed.

End PurchaseOrder.

Section PurchaseSituations.
Import Database Async Dashboard Scenario.

Lemma store_stock_within_limit : Spec.stock_within_limit store.
Proof.
  intros id plan. unfold store; cbn [server_plans].
  rewrite lookup_insert. case_decide; [| rewrite lookup_empty; discriminate].
  intros [= <-]. simpl. lia.
Qed.

(** C3 fails on the code: Bob and Dave buy the plan [basic], which has one
    unit of stock left, and their requests take turns at every [await].
    Both read [stock_used = 1], both get their server, and the plan ends
    with [stock_used = 3] over [stock_limit = 2]. *)
Lemma interleaved_purchases_exceed_stock_limit :
  Spec.stock_within_limit (w_db world) /\
  let result :=
    run_sched (alternating 6)
      [purchase_body 2 (Some 7) "bob-1"; purchase_body 4 (Some 7) "dave-1"] world in
  response PurchaseFailed <$> fst result
  = [Some (Purchased "bob-1"); Some (Purchased "dave-1")]
  /\ server_plans (w_db (snd result)) !! 7 = Some (set_stock_used 3 basic)
  /\ ~ Spec.stock_within_limit (w_db (snd result)).
Proof.
  split; [exact store_stock_within_limit |].
  assert (Hplan :
    server_plans (w_db (snd (run_sched (alternating 6)
       [purchase_body 2 (Some 7) "bob-1"; purchase_body 4 (Some 7) "dave-1"] world))) !! 7
    = Some (set_stock_used 3 basic)) by (vm_compute; reflexivity).
  cbv zeta. split; [vm_compute; reflexivity |]. split; [exact Hplan |].
  intros Hinv. specialize (Hinv 7 _ Hplan). simpl in Hinv. lia.
Qed.

Lemma serial_purchases_keep_stock_within_limit_witness :
  Spec.stock_within_limit
    (w_db (Effects.purchase_serially
             [(2, Some 7, "bob-1", fun _ => calm); (4, Some 7, "dave-1", fun _ => calm)]
             world))
  /\ forall id plan db,
       server_plans db !! id = Some plan ->
       server_plans (incrementPlanStock id db) !! id
       = Some (set_stock_used (sqlite_add1 (p_stock_used plan)) plan).
Proof.
  apply (serial_purchases_keep_stock_within_limit
           [(2, Some 7, "bob-1", fun _ => calm); (4, Some 7, "dave-1", fun _ => calm)]
           world).
  exact store_stock_within_limit.
Defined.

Lemma refused_server_changes_nothing_witness :
  let result := purchase 2 (Some 7) "bob-1" (fun _ => refusing) world in
  fst result
  = RedirectMsg instances "error" (ProvisioningInstanceFailed "No viable nodes found.")
  /\ (forall id, u_credits <$> users (w_db (snd result)) !! id
                 = u_credits <$> users (w_db world) !! id)
  /\ server_plans (w_db (snd result)) = server_plans (w_db world)
  /\ user_servers (w_db (snd result)) = user_servers (w_db world)
  /\ (forall id, u_email <$> users (w_db (snd result)) !! id
                 = u_email <$> users (w_db world) !! id)
  /\ gift_cards (w_db (snd result)) = gift_cards (w_db world)
  /\ gift_card_redemptions (w_db (snd result)) = gift_card_redemptions (w_db world).
Proof.
  apply (refused_server_changes_nothing 2 (Some 7) "bob-1" (fun _ => refusing) world
           (serverData "bob-1" 12 basic) "No viable nodes found.").
  vm_compute. left.
Defined.



Lemma purchase_validation_order_witness :
  let result := purchase 3 (Some 7) "carol-1" (fun _ => calm) world in
  (forall reason,
     Spec.first_failure
       (Spec.purchase_checks (server_plans (w_db world) !! 7) (u_credits carol)
          (getUserServerCount 3 7 (w_db world))) = Some reason ->
     result = (RedirectMsg instances "error" reason, world))
  /\ (forall plan,
        server_plans (w_db world) !! 7 = Some plan ->
        Js.truthy (p_enabled plan) = true ->
        PrimFloat.ltb (u_credits carol) (p_price plan) = true ->
        fst result = RedirectMsg instances "error" InsufficientCredits
        /\ Effects.new_exchanges world (snd result) = []
        /\ w_db (snd result) = w_db world).
Proof.
  apply (purchase_validation_order 3 7 "carol-1" (fun _ => calm) world carol).
  - repeat split; reflexivity.
  - reflexivity.
  - reflexivity.
  - reflexivity.
  - intros plan Hplan. vm_compute in Hplan. injection Hplan as <-. reflexivity.
Defined.

Lemma unparsable_environment_is_sent_empty_witness :
  let result := purchase 2 (Some 7) "bob-1" (fun _ => calm) world in
  fst result = Purchased "bob-1"
  /\ exists request,
       Effects.new_exchanges world (snd result)
       = [Pterodactyl.CreateServer request
            (Pterodactyl.Success {| Pterodactyl.sa_id := 77;
                                    Pterodactyl.sa_identifier := "a1b2c3d4" |})]
       /\ Pterodactyl.sd_environment request = Js.EmptyObject.
Proof.
  apply (unparsable_environment_is_sent_empty 2 7 "bob-1" (fun _ => calm) world bob basic
           "{oops" 12).
  - reflexivity.
  - reflexivity.
  - reflexivity.
  - reflexivity.
  - reflexivity.
  - reflexivity.
  - reflexivity.
  - reflexivity.
  - reflexivity.
  - reflexivity.
  - reflexivity.
  - vm_compute; reflexivity.
Defined.

End PurchaseSituations.

(** ** The cached listing *)

Section CacheFacts.
Import Pterodactyl.

(** C9, on the code: the listing is served from the cache while the entry
    is younger than [cacheTTL], also for the call of the sync route, which
    asks for the cache to be bypassed: no request goes to the panel. *)
Theorem sync_is_served_from_cache api now later remote userId entry :
  cache api !! userId = Some entry ->
  now - ce_timestamp entry < cacheTTL api ->
  getUserServers_call api now later remote userId true = (ce_data entry, api, []).
Proof.
  intros Hentry Hfresh.
  unfold getUserServers_call, getUserServers, _getCache. rewrite Hentry.
  apply Z.ltb_lt in Hfresh. rewrite Hfresh. reflexivity.
Qed.

End CacheFacts.

Section CacheSituations.
Import Pterodactyl Scenario.

Lemma sync_is_served_from_cache_witness :
  getUserServers_call cached_api 30000 30250 (Servers [fresh_server]) 12 true
  = (stale_listing, cached_api, []).
Proof.
  apply (sync_is_served_from_cache cached_api 30000 30250 (Servers [fresh_server]) 12
           {| ce_data := stale_listing; ce_timestamp := 10000 |}).
  - reflexivity.
  - reflexivity.
Defined.

(** Without an entry in the cache the same call does ask the panel. *)
Lemma first_listing_is_fetched :
  getUserServers_call new 30000 30250 (Servers [fresh_server]) 12 true
  = ({| sr_success := true; sr_error := None; sr_servers := [fresh_server] |},
     _setCache new 30250 12
       {| sr_success := true; sr_error := None; sr_servers := [fresh_server] |},
     [FetchUserServers 12]).
Proof. reflexivity. Qed.

End CacheSituations.

(** ** The scenarios of the specification, run on the code *)

Section Examples.
Import Database Async Dashboard Scenario.

(** The deployment locations of [basic]: the text ["1, 2,x"] is split at the
    commas, the pieces are trimmed, and the piece that is no number is
    dropped. *)
Example basic_locations : locationIds basic = [1; 2].
Proof. reflexivity. Qed.

(** Scenario A, first half: Alice, with balance 0, redeems [SAVE10]. *)
Example alice_redeems :
  let result := redeem 1 "save10" (fun _ => calm) world in
  fst result = RenderRedeem 10%float (Redeemed 10%float)
  /\ gift_cards (w_db (snd result)) !! 5 = Some (bump_uses save10)
  /\ gift_card_redemptions (w_db (snd result))
     = [{| r_user_id := 1; r_gift_card_id := 5; r_credits_received := 10%float |}].
Proof. cbv zeta. repeat split; vm_compute; reflexivity. Qed.

(** Scenario C: Carol has 3 credits, the plan costs 5. *)
Example carol_cannot_pay :
  purchase 3 (Some 7) "carol-1" (fun _ => calm) world
  = (RedirectMsg instances "error" InsufficientCredits, world).
Proof. vm_compute; reflexivity. Qed.

(** Scenario D: the panel refuses Bob's server. *)
Example bob_is_refused :
  let result := purchase 2 (Some 7) "bob-1" (fun _ => refusing) world in
  fst result
  = RedirectMsg instances "error" (ProvisioningInstanceFailed "No viable nodes found.")
  /\ w_db (snd result) = w_db world.
Proof. cbv zeta. split; vm_compute; reflexivity. Qed.

(** Scenario E: Bob has 20 credits, the plan costs 5. *)
Example bob_buys :
  let result := purchase 2 (Some 7) "bob-1" (fun _ => calm) world in
  fst result = Purchased "bob-1"
  /\ u_credits <$> users (w_db (snd result)) !! 2 = Some 15%float
  /\ p_stock_used <$> server_plans (w_db (snd result)) !! 7 = Some 2
  /\ us_pterodactyl_server_id <$> user_servers (w_db (snd result)) = [77].
Proof. cbv zeta. repeat split; vm_compute; reflexivity. Qed.

(** Carol has no panel account yet: the panel creates one, and the request
    then fails on the call of the missing [linkPterodactylUser]; nothing is
    written. *)
Example carol_is_not_linked :
  let rich_carol :=
    {| u_email := u_email carol; u_credits := 9%float; u_pterodactyl_id := None |} in
  let w := {| w_db := updateUserCredits 3 6%float store; w_panel := [] |} in
  let result := purchase 3 (Some 7) "carol-1" (fun _ => calm) w in
  users (w_db w) !! 3 = Some rich_carol
  /\ fst result = PurchaseFailed
  /\ w_panel (snd result)
     = [Pterodactyl.CreateUser "carol@example.org" (Pterodactyl.Success 41)]
  /\ w_db (snd result) = w_db w.
Proof. cbv zeta. repeat split; vm_compute; reflexivity. Qed.

End Examples.

(** * Further properties of the code *)

(** ** The guards *)

Section GuardFacts.
Import Middleware.

(** X1: the guards are nested: what [requireAdmin] lets through,
    [require2FA] lets through, and what [require2FA] lets through,
    [requireAuth] lets through. *)
Theorem guards_are_nested session :
  (requireAdmin session = Next -> require2FA session = Next)
  /\ (require2FA session = Next -> requireAuth session = Next).
Proof.
  destruct session as [[userId verified role]|]; simpl; [| split; discriminate].
  unfold has_user; simpl.
  destruct userId as [id|]; simpl; [| split; discriminate].
  destruct (Js.truthy id), verified; simpl; split; try discriminate; try reflexivity.
Qed.

(** X2: a redirect issued by a guard or by the home route leads to a page
    whose own guard lets the same session through: no request is sent back
    and forth between the guards. *)
Theorem redirects_are_admitted session url :
  requireAuth session = Redirect url \/ require2FA session = Redirect url
  \/ redirectIfAuthenticated session = Redirect url \/ home session = Redirect url ->
  exists guard, guard_of url = Some guard /\ guard session = Next.
Proof.
  assert (Hsolve : forall b verified role,
    let views s :=
      requireAuth s = Redirect url \/ require2FA s = Redirect url
      \/ redirectIfAuthenticated s = Redirect url \/ home s = Redirect url in
    forall userId, has_user {| s_userId := userId; s_twoFAVerified := verified;
                                s_role := role |} = b ->
    views (Some {| s_userId := userId; s_twoFAVerified := verified; s_role := role |}) ->
    exists guard,
      guard_of url = Some guard
      /\ guard (Some {| s_userId := userId; s_twoFAVerified := verified;
                        s_role := role |}) = Next).
  { intros b verified role views userId Huser. subst views.
    unfold requireAuth, require2FA, redirectIfAuthenticated, home. rewrite Huser.
    destruct b, verified; simpl; intros [H | [H | [H | H]]]; try discriminate;
      injection H as <-; eexists; (split; [reflexivity |]);
      unfold requireAuth, require2FA, redirectIfAuthenticated; rewrite Huser;
      reflexivity. }
  destruct session as [[userId verified role]|].
  - eapply Hsolve. reflexivity.
  - simpl. intros [H | [H | [H | H]]]; try discriminate; injection H as <-;
      eexists; (split; [reflexivity |]); reflexivity.
Qed.

End GuardFacts.

(** ** The cache of the gateway *)

Section CacheProperties.
Import Pterodactyl Conditions.

(** Writing the cache for one key leaves what the other keys are served. *)
Lemma getCache_other api t key data now other :
  other <> key ->
  _getCache (_setCache api t key data) now other = _getCache api now other.
Proof.
  intros Hother. unfold _getCache, _setCache; simpl.
  rewrite lookup_insert_ne by congruence. reflexivity.
Qed.

(** X3: a listing put in the cache at time [t] is served to its key while
    less than [cacheTTL] milliseconds have passed, and no longer; what the
    other keys are served does not change. *)
Theorem cache_entry_lifetime api t key data now other :
  _getCache (_setCache api t key data) now key
  = (if now - t <? cacheTTL api then Some data else None)
  /\ (other <> key ->
      _getCache (_setCache api t key data) now other = _getCache api now other).
Proof.
  split.
  - unfold _getCache, _setCache; simpl. rewrite lookup_insert_eq. reflexivity.
  - apply getCache_other.
Qed.

Lemma getUserServers_only_successes api now later remote userId :
  only_successes api ->
  only_successes (getUserServers api now later remote userId).1.2.
Proof.
  intros Hinv. unfold getUserServers.
  destruct (_getCache api now userId); [exact Hinv |].
  destruct remote; simpl; try exact Hinv;
    unfold only_successes, _setCache; simpl;
    intros key entry; rewrite lookup_insert; case_decide;
    try (intros [= <-]; reflexivity); apply Hinv.
Qed.

(** X4: the cache only ever holds successful listings: whatever calls have
    been made on a gateway that started with such a cache, a result that is
    given without asking the panel reports success. *)
Theorem cache_holds_only_successes calls api now later remote userId :
  only_successes api ->
  only_successes (listings calls api)
  /\ let result := getUserServers (listings calls api) now later remote userId in
     (result.2 = [] -> sr_success result.1.1 = true).
Proof.
  intros Hinv.
  assert (Hall : only_successes (listings calls api)).
  { unfold listings. revert api Hinv.
    induction calls as [| [[[n l] r] u] rest IH]; intros api Hinv; [exact Hinv |].
    simpl. apply IH. apply getUserServers_only_successes. exact Hinv. }
  split; [exact Hall |].
  cbv zeta. unfold getUserServers, _getCache.
  destruct (cache (listings calls api) !! userId) as [entry|] eqn:Hentry.
  - destruct (now - ce_timestamp entry <? cacheTTL (listings calls api)).
    + intros _. simpl. apply (Hall userId entry Hentry).
    + destruct remote; simpl; discriminate.
  - destruct remote; simpl; discriminate.
Qed.

(** X5: a listing that had to be fetched and was kept is given again,
    without asking the panel, to every call for the same user that starts
    less than [cacheTTL] milliseconds after it was stored, whatever the
    panel would answer by then. *)
Theorem listing_is_reused api now later remote userId now' later' remote' :
  _getCache api now userId = None ->
  kept remote = true ->
  now' - later < cacheTTL api ->
  let first := getUserServers api now later remote userId in
  first.2 = [FetchUserServers userId]
  /\ getUserServers first.1.2 now' later' remote' userId = (first.1.1, first.1.2, []).
Proof.
  intros Hmiss Hkept Hfresh. cbv zeta.
  apply Z.ltb_lt in Hfresh.
  assert (Hfirst : exists result,
    getUserServers api now later remote userId
    = (result, _setCache api later userId result, [FetchUserServers userId])).
  { unfold getUserServers. rewrite Hmiss.
    destruct remote; try discriminate; eexists; reflexivity. }
  destruct Hfirst as [result ->]. cbn [fst snd]. split; [reflexivity |].
  unfold getUserServers, _getCache, _setCache; simpl.
  rewrite lookup_insert_eq; simpl. rewrite Hfresh. reflexivity.
Qed.

(** X6: the calls made for one user do not bear on what another user is
    given: a call for [userId] gives the same listing, and asks the panel or
    not, whether or not a call for another user came before it. *)
Theorem listings_do_not_interfere api now later remote userId now' later' remote' other :
  other <> userId ->
  let api' := (getUserServers api now' later' remote' other).1.2 in
  (getUserServers api' now later remote userId).1.1
  = (getUserServers api now later remote userId).1.1
  /\ (getUserServers api' now later remote userId).2
     = (getUserServers api now later remote userId).2.
Proof.
  intros Hother. cbv zeta.
  assert (Hsame : _getCache (getUserServers api now' later' remote' other).1.2 now userId
                  = _getCache api now userId).
  { unfold getUserServers at 1.
    destruct (_getCache api now' other); [reflexivity |].
    destruct remote'; simpl; try reflexivity;
      apply getCache_other; congruence. }
  revert Hsame. generalize (getUserServers api now' later' remote' other).1.2.
  intros api' Hsame. unfold getUserServers. rewrite Hsame.
  destruct (_getCache api now userId); [split; reflexivity |].
  destruct remote; split; reflexivity.
Qed.

End CacheProperties.

(** ** The statements of the store *)

Section StatementProperties.
Import Database.

Lemma set_stock_used_same plan : set_stock_used (p_stock_used plan) plan = plan.
Proof. destruct plan; reflexivity. Qed.

(** [v + 1] followed by the guarded [v - 1], on a counter that is not
    negative: the counter is back at [v], except from the largest integer. *)
Lemma sqlite_add1_then_sub1 v :
  0 <= v ->
  (if 0 <? sqlite_add1 v then sqlite_sub1 (sqlite_add1 v) else sqlite_add1 v)
  = if v =? int64_max then int64_max + 1 else v.
Proof.
  intros Hv. unfold sqlite_add1, sqlite_sub1, is_int64, int64_min, int64_max.
  destruct (Z.leb_spec (-9223372036854775808) v); [| lia].
  destruct (Z.leb_spec v 9223372036854775807); cbn [andb].
  - destruct (Z.eqb_spec v 9223372036854775807).
    + subst v. vm_compute. reflexivity.
    + destruct (Z.ltb_spec 0 (v + 1)); [| lia].
      destruct (Z.leb_spec (-9223372036854775808) (v + 1)); [| lia].
      destruct (Z.leb_spec (v + 1) 9223372036854775807); [| lia].
      destruct (Z.eqb_spec (v + 1) (-9223372036854775808)); [lia |].
      cbn [andb negb]. lia.
  - destruct (Z.eqb_spec v 9223372036854775807); [lia |].
    destruct (Z.ltb_spec 0 v); [| lia].
    destruct (Z.leb_spec (-9223372036854775808) v); [| lia].
    destruct (Z.leb_spec v 9223372036854775807); [lia |]. reflexivity.
Qed.

(** X7: taking a unit of stock and giving it back leaves the store as it
    was, provided the counter of the plan is not negative and is not the
    largest 64-bit integer; from that value the increment moves the counter
    to the real [2^63], where it stays.  The guarded decrement never takes
    a counter that is not negative below zero. *)
Theorem decrement_undoes_increment id db plan :
  server_plans db !! id = Some plan ->
  0 <= p_stock_used plan ->
  server_plans (decrementPlanStock id (incrementPlanStock id db)) !! id
  = Some (if p_stock_used plan =? int64_max
          then set_stock_used (int64_max + 1) plan else plan)
  /\ (p_stock_used plan <> int64_max ->
      decrementPlanStock id (incrementPlanStock id db) = db)
  /\ forall i after,
       server_plans (decrementPlanStock id db) !! i = Some after ->
       exists before,
         server_plans db !! i = Some before
         /\ (0 <= p_stock_used before -> 0 <= p_stock_used after).
Proof.
  intros Hplan Hused.
  pose proof sqlite_add1_then_sub1 as Hround.
  assert (Htwice : forall p, 0 <= p_stock_used p ->
            (let q := set_stock_used (sqlite_add1 (p_stock_used p)) p in
             if 0 <? p_stock_used q then set_stock_used (sqlite_sub1 (p_stock_used q)) q else q)
            = if p_stock_used p =? int64_max then set_stock_used (int64_max + 1) p else p).
  { intros p Hp. pose proof (Hround (p_stock_used p) Hp) as Hv.
    destruct p; cbv zeta; unfold set_stock_used; cbn [p_stock_used p_price p_cpu p_ram
      p_disk p_swap p_io p_databases p_backups p_allocations p_egg_id p_location_ids
      p_docker_image p_startup_command p_environment_variables p_user_limit
      p_stock_limit p_enabled] in *.
    destruct (0 <? sqlite_add1 _); destruct (_ =? int64_max);
      cbn [p_stock_used]; rewrite ?Hv; f_equal; exact Hv. }
  split; [| split].
  - unfold decrementPlanStock, incrementPlanStock, with_plans; cbn [server_plans].
    rewrite alter_alter_eq, lookup_alter, decide_True by reflexivity.
    rewrite Hplan. cbn [fmap option_fmap option_map]. f_equal.
    exact (Htwice plan Hused).
  - intros Hne. destruct db as [us cards reds plans servers].
    unfold decrementPlanStock, incrementPlanStock, with_plans; cbn [server_plans] in *.
    f_equal. rewrite alter_alter_eq. apply alter_id. intros p Hp.
    rewrite Hplan in Hp. injection Hp as <-.
    pose proof (Htwice plan Hused) as Hback.
    destruct (Z.eqb_spec (p_stock_used plan) int64_max); [contradiction | exact Hback].
  - intros i after. unfold decrementPlanStock, with_plans; simpl.
    rewrite lookup_alter. case_decide as Hi.
    + subst i. rewrite Hplan. simpl. intros [= <-]. exists plan. split; [reflexivity |].
      destruct (0 <? p_stock_used plan) eqn:Hpos; simpl; [| tauto].
      apply Z.ltb_lt in Hpos. intros _. unfold sqlite_sub1.
      destruct (is_int64 _ && negb _); lia.
    + intros Hat. exists after. split; [exact Hat | tauto].
Qed.

(** Counting the rows that pass a test, after one more row was added. *)
Lemma count_after_insert {A} (test : A -> bool) (rows : list A) (row : A) :
  Z.of_nat (length (List.filter test (rows ++ [row])))
  = Z.of_nat (length (List.filter test rows)) + (if test row then 1 else 0).
Proof.
  rewrite List.filter_app, length_app, Nat2Z.inj_add. f_equal.
  simpl. destruct (test row); reflexivity.
Qed.

(** X8: a recorded redemption raises by one what [getUserRedemptions]
    counts for its user and its card, and leaves every other count. *)
Theorem redemption_is_counted userId id credits db u g :
  getUserRedemptions u g (redeemGiftCard userId id credits db)
  = getUserRedemptions u g db
    + (if (userId =? u) && (id =? g) then 1 else 0).
Proof.
  unfold getUserRedemptions, redeemGiftCard; simpl.
  rewrite count_after_insert. f_equal.
Qed.

(** X9: a new instance record raises by one what [getUserServerCount]
    counts for its user and its plan when its status is ['active'] or is
    left empty, and changes no count otherwise. *)
Theorem instance_is_counted s db u p :
  getUserServerCount u p (createUserServer s db)
  = getUserServerCount u p db
    + (if (us_user_id s =? u) && (us_plan_id s =? p)
          && (String.eqb (us_status s) "" || String.eqb (us_status s) "active")
       then 1 else 0).
Proof.
  unfold getUserServerCount, createUserServer; simpl.
  rewrite count_after_insert. f_equal.
  unfold active_server_of. cbn [us_user_id us_plan_id us_status].
  destruct ((us_user_id s =? u) && (us_plan_id s =? p)); [| reflexivity].
  destruct (us_status s) as [| c rest]; [reflexivity |].
  cbn [Js.truthy_str andb orb]. change (String.eqb (String c rest) "") with false.
  cbn [orb]. destruct (String.eqb (String c rest) "active"); reflexivity.
Qed.

End StatementProperties.

(** ** Redemption, further *)

Section RedeemEffects.
Import Database Async Dashboard Conditions.
Context `{Js.Runtime}.

(** Every redemption either leaves the store alone or has passed the checks
    on the rows read at its start and has issued its writes. *)
Lemma redeem_effects userId code env w :
  let result := redeem userId code env w in
  w_panel (snd result) = w_panel w /\
  (w_db (snd result) = w_db w
   \/ exists user id card,
        users (w_db w) !! userId = Some user
        /\ getGiftCard (Js.toUpperCase code) (w_db w) = Some (id, card)
        /\ gc_uses card < gc_max_uses card
        /\ getUserRedemptions userId id (w_db w) < gc_per_user_limit card
        /\ w_db (snd result)
           = Effects.redeem_writes userId id card
               (e_fault (env 3%nat), e_fault (env 4%nat), e_fault (env 5%nat))
               (w_db w)).
Proof.
  unfold redeem, try_catch, redeem_body. await.
  destruct (e_fault (env 0%nat)); [simpl; auto |].
  destruct (getUserById userId (w_db w)) as [user|] eqn:Huser; [| simpl; auto].
  await.
  destruct (e_fault (env 1%nat)); [simpl; auto |].
  destruct (getGiftCard (Js.toUpperCase code) (w_db w)) as [[id card]|] eqn:Hcard;
    [| simpl; auto].
  destruct (negb (Js.truthy (gc_enabled card))); [simpl; auto |].
  assert (Hlimits :
    let w' := snd (caught RedeemError (run (redeem_limits userId id user card) env 2%nat w)) in
    w_panel w' = w_panel w /\
    (w_db w' = w_db w
     \/ exists user0 id0 card0,
          users (w_db w) !! userId = Some user0
          /\ Some (id, card) = Some (id0, card0)
          /\ gc_uses card0 < gc_max_uses card0
          /\ getUserRedemptions userId id0 (w_db w) < gc_per_user_limit card0
          /\ w_db w'
             = Effects.redeem_writes userId id0 card0
                 (e_fault (env 3%nat), e_fault (env 4%nat), e_fault (env 5%nat))
                 (w_db w))).
  { unfold redeem_limits.
    destruct (gc_max_uses card <=? gc_uses card) eqn:Huses; [simpl; auto |].
    apply Z.leb_gt in Huses. await.
    destruct (e_fault (env 2%nat)); [simpl; auto |].
    destruct (gc_per_user_limit card <=? _) eqn:Hprior; [simpl; auto |].
    apply Z.leb_gt in Hprior.
    pose proof (redeem_commit_world userId id card env 3%nat w) as [Hdb Hpanel].
    destruct (run (redeem_commit userId id card) env 3%nat w) as [[r|] w1];
      cbn [fst snd] in *; (split; [exact Hpanel |]); right;
      exists user, id, card; repeat split; assumption. }
  destruct (gc_expires_at card); cbn [run].
  - exact Hlimits.
  - exact Hlimits.
  - destruct (expired _ _); [simpl; auto |]. exact Hlimits.
Qed.

(** The tables after the writes of a redemption: the user may have been
    credited, the card may have one more use, the redemption may have been
    recorded, each only if the one before took place. *)
Lemma redeem_writes_tables userId id card faults db :
  exists credited bumped recorded : bool,
    (recorded = true -> bumped = true) /\ (bumped = true -> credited = true)
    /\ (recorded = true <-> faults = (false, false, false))
    /\ users (Effects.redeem_writes userId id card faults db)
       = (if credited then users (updateUserCredits userId (gc_credits card) db)
          else users db)
    /\ gift_cards (Effects.redeem_writes userId id card faults db)
       = (if bumped then alter bump_uses id (gift_cards db) else gift_cards db)
    /\ gift_card_redemptions (Effects.redeem_writes userId id card faults db)
       = (if recorded
          then gift_card_redemptions (redeemGiftCard userId id (gc_credits card) db)
          else gift_card_redemptions db)
    /\ server_plans (Effects.redeem_writes userId id card faults db) = server_plans db
    /\ user_servers (Effects.redeem_writes userId id card faults db) = user_servers db.
Proof.
  destruct faults as [[[] []] []]; simpl;
    [ exists false, false, false | exists false, false, false
    | exists false, false, false | exists false, false, false
    | exists true, false, false | exists true, false, false
    | exists true, true, false | exists true, true, true ];
    repeat split; try reflexivity; try discriminate; intros; congruence.
Qed.

Lemma redemptions_counted_after userId id card db u g :
  Z.of_nat (length (List.filter (redemption_of u g)
     (gift_card_redemptions (redeemGiftCard userId id (gc_credits card) db))))
  = getUserRedemptions u g db + (if (userId =? u) && (id =? g) then 1 else 0).
Proof.
  unfold getUserRedemptions, redeemGiftCard; simpl.
  rewrite count_after_insert. f_equal.
Qed.

Lemma redeem_keeps_redemptions_within_limit userId code env w :
  records_within_limit (w_db w) ->
  records_within_limit (w_db (snd (redeem userId code env w))).
Proof.
  intros Hinv.
  destruct (redeem_effects userId code env w)
    as [_ [-> | (user & id & card & _ & Hcard & _ & Hprior & ->)]]; [exact Hinv |].
  apply getGiftCard_lookup in Hcard as [Hat _].
  destruct (redeem_writes_tables userId id card
              (e_fault (env 3%nat), e_fault (env 4%nat), e_fault (env 5%nat)) (w_db w))
    as (credited & bumped & recorded & _ & _ & _ & _ & Hcards & Hrecords & _).
  intros u g c Hc. unfold getUserRedemptions. rewrite Hrecords. rewrite Hcards in Hc.
  assert (Hbefore : exists c0, gift_cards (w_db w) !! g = Some c0
                               /\ gc_per_user_limit c = gc_per_user_limit c0
                               /\ (g = id -> c0 = card)).
  { destruct bumped.
    - rewrite lookup_alter in Hc. case_decide as Hg.
      + subst g. rewrite Hat in Hc. injection Hc as <-. exists card. auto.
      + exists c. repeat split; auto. congruence.
    - exists c. repeat split; auto. intros ->. congruence. }
  destruct Hbefore as (c0 & Hc0 & -> & Hsame).
  pose proof (Hinv u g c0 Hc0) as Hle.
  destruct recorded; [| exact Hle].
  rewrite redemptions_counted_after.
  destruct ((userId =? u) && (id =? g)) eqn:Hpair; [| lia].
  apply andb_true_iff in Hpair as [Hu%Z.eqb_eq Hg%Z.eqb_eq]. subst u g.
  rewrite (Hsame eq_refl). lia.
Qed.

(** X10: redemption attempts that are handled one after another never
    leave on record more redemptions of a card by one user than its
    [per_user_limit], whatever the store and the clock do.  The bound is on
    the records: see [unrecorded_redemption_is_repeated] for the credits. *)
Theorem serial_redemptions_keep_records_within_limit requests w :
  records_within_limit (w_db w) ->
  records_within_limit (w_db (Effects.redeem_serially requests w)).
Proof.
  unfold Effects.redeem_serially. revert w.
  induction requests as [| [[userId code] env] rest IH]; intros w Hinv; [exact Hinv |].
  simpl. apply IH. apply redeem_keeps_redemptions_within_limit. exact Hinv.
Qed.

(** Counting one more row and adding one in SQLite agree up to [2^63]. *)
Lemma sqlite_add1_counts (rows : Z) :
  0 <= rows ->
  sqlite_add1 (Z.min rows (int64_max + 1)) = Z.min (rows + 1) (int64_max + 1).
Proof.
  intros Hrows. unfold sqlite_add1, is_int64, int64_min, int64_max.
  destruct (Z.leb_spec (-9223372036854775808) (Z.min rows (9223372036854775807 + 1)));
    [| lia].
  destruct (Z.leb_spec (Z.min rows (9223372036854775807 + 1)) 9223372036854775807);
    cbn [andb]; lia.
Qed.

Lemma redeem_keeps_uses_matching userId code env w :
  (forall n, e_fault (env n) = false) ->
  uses_match_records (w_db w) ->
  uses_match_records (w_db (snd (redeem userId code env w))).
Proof.
  intros Hcalm Hinv.
  destruct (redeem_effects userId code env w)
    as [_ [-> | (user & id & card & _ & Hcard & _ & _ & ->)]]; [exact Hinv |].
  apply getGiftCard_lookup in Hcard as [Hat _].
  rewrite !Hcalm. cbn [Effects.redeem_writes].
  intros g c. unfold redemptions_of_card. simpl.
  rewrite List.filter_app, length_app, Nat2Z.inj_add. simpl.
  rewrite lookup_alter. case_decide as Hg.
  - subst g. rewrite Hat. simpl. intros [= <-]. cbn [gc_uses bump_uses].
    rewrite Z.eqb_refl. cbn [length]. rewrite (Hinv id card Hat).
    unfold redemptions_of_card. apply sqlite_add1_counts. lia.
  - intros Hc. rewrite (Hinv g c Hc). unfold redemptions_of_card.
    replace (id =? g) with false by (symmetry; apply Z.eqb_neq; congruence).
    simpl. f_equal. lia.
Qed.

(** X11: as long as the store rejects no statement, redemption attempts
    that are handled one after another keep the uses counted on every card
    equal to the number of redemptions recorded for it (up to [2^63], where
    SQLite's [uses + 1] stops counting). *)
Theorem serial_redemptions_keep_uses_matching requests w :
  Forall (fun r : Z * string * (nat -> Env) => forall n, e_fault (r.2 n) = false)
         requests ->
  uses_match_records (w_db w) ->
  uses_match_records (w_db (Effects.redeem_serially requests w)).
Proof.
  unfold Effects.redeem_serially. intros Hcalm. revert w.
  induction Hcalm as [| [[userId code] env] rest Henv _ IH]; intros w Hinv;
    [exact Hinv |].
  simpl. apply IH. apply redeem_keeps_uses_matching; assumption.
Qed.

(** X12: a redemption never talks to the panel, never touches a plan or an
    instance record, never changes the row of another user nor the e-mail or
    the panel account of its own user; on the cards it changes at most the
    uses of one card, by one; and it records at most one redemption, for its
    own user. *)
Theorem redeem_leaves_the_rest userId code env w :
  let result := redeem userId code env w in
  w_panel (snd result) = w_panel w
  /\ server_plans (w_db (snd result)) = server_plans (w_db w)
  /\ user_servers (w_db (snd result)) = user_servers (w_db w)
  /\ (forall other, other <> userId ->
        users (w_db (snd result)) !! other = users (w_db w) !! other)
  /\ (forall i,
        u_email <$> users (w_db (snd result)) !! i = u_email <$> users (w_db w) !! i
        /\ u_pterodactyl_id <$> users (w_db (snd result)) !! i
           = u_pterodactyl_id <$> users (w_db w) !! i)
  /\ (exists id, forall i,
        gift_cards (w_db (snd result)) !! i = gift_cards (w_db w) !! i
        \/ i = id /\ gift_cards (w_db (snd result)) !! i
                     = bump_uses <$> gift_cards (w_db w) !! i)
  /\ (gift_card_redemptions (w_db (snd result)) = gift_card_redemptions (w_db w)
      \/ exists id credits,
           gift_card_redemptions (w_db (snd result))
           = gift_card_redemptions (w_db w)
             ++ [{| r_user_id := userId; r_gift_card_id := id;
                    r_credits_received := credits |}]).
Proof.
  cbv zeta.
  destruct (redeem_effects userId code env w)
    as [Hpanel [-> | (user & id & card & _ & _ & _ & _ & ->)]].
  - repeat split; auto. exists 0. auto.
  - destruct (redeem_writes_tables userId id card
                (e_fault (env 3%nat), e_fault (env 4%nat), e_fault (env 5%nat)) (w_db w))
      as (credited & bumped & recorded & _ & _ & _ & Husers & Hcards & Hrecords
          & Hplans & Hservers).
    rewrite Husers, Hcards, Hrecords, Hplans, Hservers.
    split; [exact Hpanel |]. split; [reflexivity |]. split; [reflexivity |].
    split; [| split; [| split]].
    + intros other Hother. destruct credited; [| reflexivity].
      simpl. rewrite lookup_alter_ne by congruence. reflexivity.
    + intros i. destruct credited; [| split; reflexivity].
      simpl. rewrite lookup_alter. case_decide; [| split; reflexivity].
      subst i. destruct (users (w_db w) !! userId); split; reflexivity.
    + exists id. intros i. destruct bumped; [| left; reflexivity].
      rewrite lookup_alter. case_decide; [right; subst; auto | left; reflexivity].
    + destruct recorded; [right | left; reflexivity]. eexists _, _. reflexivity.
Qed.

End RedeemEffects.

(** ** Purchase, further *)

Section PurchaseEffects.
Import Database Async Dashboard Conditions.
Context `{Js.Runtime}.

(** Every purchase is either held back or goes through to its writes. *)
Lemma purchase_effects userId plan_id server_name env w :
  let result := purchase userId plan_id server_name env w in
  held_back userId server_name w result
  \/ went_through userId plan_id server_name env w result.
Proof.
  assert (Hquiet : forall r : Response,
    r <> Purchased server_name -> held_back userId server_name w (r, w)).
  { intros r Hr. repeat split; auto. }
  unfold purchase, try_catch, purchase_body. await.
  destruct (e_fault (env 0%nat)); [left; apply Hquiet; discriminate |].
  destruct (getUserById userId (w_db w)) as [user|] eqn:Huser;
    [| left; apply Hquiet; discriminate].
  destruct plan_id as [id|]; [| left; apply Hquiet; discriminate].
  destruct (Js.truthy_str (Some server_name)); [| left; apply Hquiet; discriminate].
  await.
  destruct (e_fault (env 1%nat)); [left; apply Hquiet; discriminate |].
  destruct (getPlanById id (w_db w)) as [plan|] eqn:Hplan;
    [| left; apply Hquiet; discriminate].
  destruct (negb (Js.truthy (p_enabled plan))); [left; apply Hquiet; discriminate |].
  destruct (PrimFloat.ltb (u_credits user) (p_price plan));
    [left; apply Hquiet; discriminate |].
  assert (Hstock : forall n,
    (0 < p_user_limit plan -> getUserServerCount userId id (w_db w) < p_user_limit plan) ->
    let result :=
      caught PurchaseFailed (run (purchase_stock userId id server_name user plan) env n w) in
    held_back userId server_name w result
    \/ went_through userId (Some id) server_name env w result).
  { intros n Hcount. cbv zeta. unfold purchase_stock.
    destruct ((0 <? p_stock_limit plan) && (p_stock_limit plan <=? p_stock_used plan));
      [left; apply Hquiet; discriminate |].
    assert (Hcreate : linked user = false ->
      held_back userId server_name w
        (caught PurchaseFailed
           (run (Await (PteroCreateUser (u_email user)) (fun pteroUser =>
                 if Pterodactyl.success pteroUser then Throw
                 else Ret (RedirectMsg instances "error" ProvisioningAccountFailed)))
                env n w))).
    { intros Hnone. unfold held_back. await.
      destruct (e_createUser (env n)) as [account | error] eqn:Hanswer; simpl;
        (split; [reflexivity |]); (split; [discriminate |]); right; left;
        exists user; eexists; (split; [exact Huser |]); (split; [exact Hnone |]);
        rewrite <- Hanswer; (split; [reflexivity |]); rewrite Hanswer; reflexivity. }
    unfold purchase_account.
    destruct (u_pterodactyl_id user) as [pterodactyl_id|] eqn:Haccount;
      [| left; apply Hcreate; unfold linked; rewrite Haccount; reflexivity].
    destruct (Js.truthy pterodactyl_id) eqn:Hlinked;
      [| left; apply Hcreate; unfold linked; rewrite Haccount; exact Hlinked].
    unfold purchase_create. await.
    destruct (e_createServer (env n)) as [data | error].
    - right.
      set (w1 := {| w_db := w_db w; w_panel := w_panel w ++ _ |}).
      pose proof (purchase_commit_world userId id server_name plan data env (S n) w1)
        as (Hdb & Hpanel & Hresponse).
      exists id, user, plan, pterodactyl_id, data, n. repeat split; auto.
    - left. unfold held_back. simpl. split; [reflexivity |]. split; [discriminate |].
      right; right. exists user. eexists _, _. split; [exact Huser |].
      split; [unfold linked; rewrite Haccount; exact Hlinked | reflexivity]. }
  destruct (0 <? p_user_limit plan) eqn:Hlimit.
  - await.
    destruct (e_fault (env 2%nat)); [left; apply Hquiet; discriminate |].
    destruct (p_user_limit plan <=? _) eqn:Hcount; [left; apply Hquiet; discriminate |].
    apply Z.leb_gt in Hcount. apply Hstock. intros _. exact Hcount.
  - apply Hstock. intros Hpos. apply Z.ltb_ge in Hlimit. lia.
Qed.

End PurchaseEffects.

Section PurchaseFurther.
Import Database Async Dashboard Conditions.
Context `{Js.Runtime}.

(** X13: a user who has no panel account cannot buy: the purchase never
    succeeds, never writes to the store and never asks for a server; when
    the panel does create the account that the route asks for, the request
    still ends with the general error, because the account cannot be noted
    on the user. *)
Theorem unlinked_user_cannot_buy userId plan_id server_name env w user :
  users (w_db w) !! userId = Some user ->
  linked user = false ->
  let result := purchase userId plan_id server_name env w in
  w_db (snd result) = w_db w
  /\ fst result <> Purchased server_name
  /\ (forall data answer,
        Pterodactyl.CreateServer data answer ∉ Effects.new_exchanges w (snd result))
  /\ (forall account,
        Pterodactyl.CreateUser (u_email user) (Pterodactyl.Success account)
          ∈ Effects.new_exchanges w (snd result) ->
        fst result = PurchaseFailed).
Proof.
  intros Huser Hunlinked result. subst result.
  destruct (purchase_effects userId plan_id server_name env w) as [Hheld | Hwent].
  - destruct Hheld as (Hdb & Hanswer & Hpanel).
    split; [exact Hdb |]. split; [exact Hanswer |].
    destruct Hpanel as [Hnone | [(user0 & answer & Huser0 & _ & Hsent & Hr)
                                | (user0 & data & error & Huser0 & Hlinked & _)]].
    + assert (Hnew : Effects.new_exchanges w
                       (purchase userId plan_id server_name env w).2 = []).
      { unfold Effects.new_exchanges. rewrite Hnone. apply drop_all. }
      rewrite Hnew. split; intros; [apply not_elem_of_nil |].
      exfalso. eapply not_elem_of_nil. eassumption.
    + rewrite Huser in Huser0. injection Huser0 as <-.
      rewrite (new_exchanges_one _ _ _ Hsent). split.
      * intros data answer' Hin. apply list_elem_of_singleton in Hin. discriminate.
      * intros account Hin. apply list_elem_of_singleton in Hin.
        injection Hin as Hanswer'. rewrite Hr, <- Hanswer'. reflexivity.
    + rewrite Huser in Huser0. injection Huser0 as <-. congruence.
  - destruct Hwent as (id & user0 & plan & p & data & n & _ & Huser0 & _ & Hp & Hlinked & _).
    rewrite Huser in Huser0. injection Huser0 as <-.
    unfold linked in Hunlinked. rewrite Hp in Hunlinked. congruence.
Qed.

(** The tables after the writes of a purchase. *)
Lemma purchase_writes_tables userId id server_name plan data faults db :
  exists debited bumped recorded : bool,
    (recorded = true -> bumped = true) /\ (bumped = true -> debited = true)
    /\ users (Effects.purchase_writes userId id server_name plan data faults db)
       = (if debited
          then users (updateUserCredits userId (PrimFloat.opp (p_price plan)) db)
          else users db)
    /\ server_plans (Effects.purchase_writes userId id server_name plan data faults db)
       = (if bumped
          then alter (fun p => set_stock_used (sqlite_add1 (p_stock_used p)) p) id (server_plans db)
          else server_plans db)
    /\ user_servers (Effects.purchase_writes userId id server_name plan data faults db)
       = (if recorded
          then user_servers
                 (createUserServer
                    {| us_user_id := userId; us_plan_id := id;
                       us_pterodactyl_server_id := Pterodactyl.sa_id data;
                       us_server_name := server_name;
                       us_server_identifier := Pterodactyl.sa_identifier data;
                       us_status := "active" |} db)
          else user_servers db)
    /\ gift_cards (Effects.purchase_writes userId id server_name plan data faults db)
       = gift_cards db
    /\ gift_card_redemptions
         (Effects.purchase_writes userId id server_name plan data faults db)
       = gift_card_redemptions db.
Proof.
  destruct faults as [[[] []] []]; simpl;
    [ exists false, false, false | exists false, false, false
    | exists false, false, false | exists false, false, false
    | exists true, false, false | exists true, false, false
    | exists true, true, false | exists true, true, true ];
    repeat split; try reflexivity; try discriminate; intros; congruence.
Qed.



(** X15: once the panel has created the server, the three writes of a
    purchase are issued one after the other: the first one that the store
    rejects ends the request with the general error, although the server
    exists on the panel, and leaves the writes before it in place (a debit
    without an instance record, for one); the purchase succeeds only when
    none is rejected. *)
Theorem purchase_commits_statement_by_statement
  userId id server_name env w user plan pterodactyl_id data :
  e_fault (env 0%nat) = false /\ e_fault (env 1%nat) = false /\ e_fault (env 2%nat) = false ->
  users (w_db w) !! userId = Some user ->
  u_pterodactyl_id user = Some pterodactyl_id ->
  Js.truthy pterodactyl_id = true ->
  server_plans (w_db w) !! id = Some plan ->
  Js.truthy_str (Some server_name) = true ->
  Js.is_nan (u_credits user) = false ->
  Js.is_nan (p_price plan) = false ->
  Spec.first_failure
    (Spec.purchase_checks (Some plan) (u_credits user)
       (getUserServerCount userId id (w_db w))) = None ->
  let n := if 0 <? p_user_limit plan then 3%nat else 2%nat in
  e_createServer (env n) = Pterodactyl.Success data ->
  let faults := (e_fault (env (S n)), e_fault (env (S (S n))),
                 e_fault (env (S (S (S n))))) in
  let result := purchase userId (Some id) server_name env w in
  Effects.new_exchanges w (snd result)
  = [Pterodactyl.CreateServer (serverData server_name pterodactyl_id plan)
       (Pterodactyl.Success data)]
  /\ w_db (snd result)
     = Effects.purchase_writes userId id server_name plan data faults (w_db w)
  /\ fst result
     = (if Effects.all_accepted faults then Purchased server_name else PurchaseFailed).
Proof.
  intros Hreads Huser Haccount Hlinked Hplan Hname Hbalance Hprice Hchecks n Hpanel
    faults result. subst faults result.
  rewrite (purchase_validation userId id server_name env w user); auto.
  2: { intros plan'. rewrite Hplan. intros [= <-]. exact Hprice. }
  rewrite Hplan, Hchecks. fold n.
  unfold purchase_account. rewrite Haccount, Hlinked.
  unfold purchase_create. await. rewrite Hpanel.
  set (w1 := {| w_db := w_db w; w_panel := _ |}).
  pose proof (purchase_commit_world userId id server_name plan data env (S n) w1)
    as (Hdb & Hsent & Hresponse).
  split; [apply new_exchanges_one; exact Hsent |]. split; assumption.
Qed.

(** X16: a purchase never touches a gift card or a redemption, never
    changes the row of another user nor the e-mail or the panel account of
    its own user; on the plans it changes at most [stock_used] of one plan,
    by one; it records at most one instance, for its own user; and it sends
    the panel at most one request. *)
Theorem purchase_leaves_the_rest userId plan_id server_name env w :
  let result := purchase userId plan_id server_name env w in
  gift_cards (w_db (snd result)) = gift_cards (w_db w)
  /\ gift_card_redemptions (w_db (snd result)) = gift_card_redemptions (w_db w)
  /\ (forall other, other <> userId ->
        users (w_db (snd result)) !! other = users (w_db w) !! other)
  /\ (forall i,
        u_email <$> users (w_db (snd result)) !! i = u_email <$> users (w_db w) !! i
        /\ u_pterodactyl_id <$> users (w_db (snd result)) !! i
           = u_pterodactyl_id <$> users (w_db w) !! i)
  /\ (exists id, forall i,
        server_plans (w_db (snd result)) !! i = server_plans (w_db w) !! i
        \/ i = id /\ server_plans (w_db (snd result)) !! i
                     = (fun p => set_stock_used (sqlite_add1 (p_stock_used p)) p)
                       <$> server_plans (w_db w) !! i)
  /\ (user_servers (w_db (snd result)) = user_servers (w_db w)
      \/ exists row,
           us_user_id row = userId
           /\ user_servers (w_db (snd result)) = user_servers (w_db w) ++ [row])
  /\ (length (Effects.new_exchanges w (snd result)) <= 1)%nat.
Proof.
  cbv zeta.
  destruct (purchase_effects userId plan_id server_name env w) as [Hheld | Hwent].
  - destruct Hheld as (-> & _ & Hpanel).
    repeat split; auto; try (exists 0; auto).
    unfold Effects.new_exchanges.
    destruct Hpanel as [-> | [(u & a & _ & _ & -> & _) | (u & d & e & _ & _ & ->)]];
      rewrite ?drop_all, ?drop_app_length; simpl; lia.
  - destruct Hwent as (id & user & plan & pid & data & n & _ & _ & _ & _ & _ & _
                       & Hsent & -> & _).
    destruct (purchase_writes_tables userId id server_name plan data
                (e_fault (env (S n)), e_fault (env (S (S n))),
                 e_fault (env (S (S (S n))))) (w_db w))
      as (debited & bumped & recorded & _ & _ & Husers & Hplans & Hservers
          & Hcards & Hrecords).
    rewrite Husers, Hplans, Hservers, Hcards, Hrecords.
    split; [reflexivity |]. split; [reflexivity |].
    split; [| split; [| split; [| split]]].
    + intros other Hother. destruct debited; [| reflexivity].
      simpl. rewrite lookup_alter_ne by congruence. reflexivity.
    + intros i. destruct debited; [| split; reflexivity].
      simpl. rewrite lookup_alter. case_decide; [| split; reflexivity].
      subst i. destruct (users (w_db w) !! userId); split; reflexivity.
    + exists id. intros i. destruct bumped; [| left; reflexivity].
      rewrite lookup_alter. case_decide; [right; subst; auto | left; reflexivity].
    + destruct recorded; [right | left; reflexivity].
      eexists. split; [| reflexivity]. reflexivity.
    + rewrite (new_exchanges_one _ _ _ Hsent). simpl. lia.
Qed.

End PurchaseFurther.

(** ** The gift cards of the administrator *)

Section CardFacts.
Import Database Async Dashboard Admin Conditions.
Context `{Js.Runtime}.

Lemma getGiftCard_unique db id card :
  codes_unique db -> gift_cards db !! id = Some card ->
  getGiftCard (gc_code card) db = Some (id, card).
Proof.
  intros Hunique Hat.
  destruct (getGiftCard_stored (gc_code card) db id card Hat eq_refl)
    as (id' & card' & Hfound & Hcode).
  destruct (getGiftCard_lookup _ _ _ _ Hfound) as [Hat' _].
  assert (id' = id) as -> by (eapply Hunique; eauto).
  rewrite Hfound. congruence.
Qed.

Lemma getGiftCard_none code db :
  (forall id card, gift_cards db !! id = Some card -> gc_code card <> code) ->
  getGiftCard code db = None.
Proof.
  intros Hfree. destruct (getGiftCard code db) as [[id card]|] eqn:Hfound; [| reflexivity].
  destruct (getGiftCard_lookup _ _ _ _ Hfound) as [Hat Hcode].
  exfalso. exact (Hfree id card Hat Hcode).
Qed.

(** A card that is inserted under a code that is not taken: the codes stay
    unique and a lookup of the code finds the card. *)
Lemma inserted_card_lookup lastID card db :
  codes_unique db ->
  code_taken (gc_code card) db = false ->
  let db' := with_cards (insert lastID card) db in
  (forall id c, gift_cards db !! id = Some c -> gc_code c <> gc_code card)
  /\ codes_unique db'
  /\ getGiftCard (gc_code card) db' = Some (lastID, card).
Proof.
  intros Hunique Htaken db'. unfold code_taken in Htaken.
  apply bool_decide_eq_false in Htaken.
  assert (Hfree : forall id c, gift_cards db !! id = Some c -> gc_code c <> gc_code card).
  { intros id c Hat Hcode. apply Htaken. rewrite <- Hcode.
    rewrite (getGiftCard_unique db id c Hunique Hat). eauto. }
  assert (Hunique' : codes_unique db').
  { intros i j c d. unfold db'; simpl. rewrite !lookup_insert.
    repeat case_decide; subst; intros Hc Hd Hcode; try reflexivity.
    - injection Hc as <-. exfalso. exact (Hfree j d Hd (eq_sym Hcode)).
    - injection Hd as <-. exfalso. exact (Hfree i c Hc Hcode).
    - eapply Hunique; eauto. }
  split; [exact Hfree |]. split; [exact Hunique' |].
  apply (getGiftCard_unique db' lastID card Hunique').
  unfold db'; simpl. apply lookup_insert_eq.
Qed.

(** X17: [createGiftCard] is rejected exactly when the code is taken or the
    credits are not a number; otherwise the codes stay unique, the new card
    is what a lookup of its code finds, with no use and enabled, and the
    lookups of the other codes find what they found. *)
Theorem created_card_is_found lastID code credits maxUses perUserLimit expiresAt db :
  codes_unique db ->
  gift_cards db !! lastID = None ->
  match createGiftCard lastID code credits maxUses perUserLimit expiresAt db with
  | None => is_Some (getGiftCard code db) \/ Js.is_nan credits = true
  | Some db' =>
      getGiftCard code db = None
      /\ Js.is_nan credits = false
      /\ codes_unique db'
      /\ getGiftCard code db'
         = Some (lastID,
                 {| gc_code := code; gc_credits := credits; gc_max_uses := maxUses;
                    gc_uses := 0; gc_per_user_limit := perUserLimit;
                    gc_enabled := 1; gc_expires_at := expiresAt |})
      /\ forall other, other <> code -> getGiftCard other db' = getGiftCard other db
  end.
Proof.
  intros Hunique Hfresh. unfold createGiftCard.
  destruct (code_taken code db) eqn:Htaken; cbn [orb].
  { unfold code_taken in Htaken. apply bool_decide_eq_true in Htaken. left. exact Htaken. }
  destruct (Js.is_nan credits) eqn:Hnumber; [right; reflexivity |].
  set (card := {| gc_code := code; gc_credits := credits; gc_max_uses := maxUses;
                  gc_uses := 0; gc_per_user_limit := perUserLimit;
                  gc_enabled := 1; gc_expires_at := expiresAt |}).
  destruct (inserted_card_lookup lastID card db Hunique Htaken)
    as (Hfree & Hunique' & Hfound).
  set (db' := with_cards (insert lastID card) db) in *.
  split; [| split; [reflexivity | split; [exact Hunique' | split; [exact Hfound |]]]].
  - apply getGiftCard_none. intros id c Hat. exact (Hfree id c Hat).
  - intros other Hother.
    destruct (getGiftCard other db) as [[id c]|] eqn:Hother_found.
    + destruct (getGiftCard_lookup _ _ _ _ Hother_found) as [Hat Hcode]. subst other.
      apply (getGiftCard_unique db' id c Hunique').
      unfold db'; simpl. rewrite lookup_insert_ne by congruence. exact Hat.
    + apply getGiftCard_none. intros id c. unfold db'; simpl.
      rewrite lookup_insert. case_decide.
      * intros [= <-]. simpl. congruence.
      * intros Hat Hcode. subst other.
        rewrite (getGiftCard_unique db id c Hunique Hat) in Hother_found. discriminate.
Qed.

(** The commit step when the store accepts everything. *)
Lemma redeem_commit_calm userId id card env n w user :
  e_fault (env n) = false -> e_fault (env (S n)) = false ->
  e_fault (env (S (S n))) = false -> e_fault (env (S (S (S n)))) = false ->
  users (w_db w) !! userId = Some user ->
  fst (caught RedeemError (run (redeem_commit userId id card) env n w))
  = RenderRedeem (Js.or_zero (PrimFloat.add (u_credits user) (gc_credits card)))
                 (Redeemed (gc_credits card)).
Proof.
  intros H0 H1 H2 H3 Huser. unfold redeem_commit. await.
  rewrite H0. await. rewrite H1. await. rewrite H2. await. rewrite H3.
  unfold getUserById. cbn [w_db users redeemGiftCard incrementGiftCardUses updateUserCredits].
  rewrite lookup_alter, decide_True by reflexivity. rewrite Huser. reflexivity.
Qed.

(** X18: a card created under the upper-case form of what the
    administrator typed, as the admin route does, can be redeemed by typing
    the same text: a user who redeems it, with nothing going wrong in the
    store, is credited its value. *)
Theorem created_card_can_be_redeemed
  lastID typed credits maxUses perUserLimit db db' userId user env panel :
  createGiftCard lastID (Js.toUpperCase typed) credits maxUses perUserLimit NoExpiry db
  = Some db' ->
  codes_unique db ->
  gift_cards db !! lastID = None ->
  getUserRedemptions userId lastID db = 0 ->
  0 < maxUses -> 0 < perUserLimit ->
  users db !! userId = Some user ->
  (forall n, e_fault (env n) = false) ->
  fst (redeem userId typed env {| w_db := db'; w_panel := panel |})
  = RenderRedeem (Js.or_zero (PrimFloat.add (u_credits user) credits)) (Redeemed credits).
Proof.
  intros Hcreate Hunique Hfresh Hrecords Huses Hlimit Huser Hcalm.
  unfold createGiftCard in Hcreate.
  destruct (code_taken (Js.toUpperCase typed) db) eqn:Htaken; [discriminate |].
  destruct (Js.is_nan credits); [discriminate |].
  injection Hcreate as <-.
  set (card := {| gc_code := Js.toUpperCase typed; gc_credits := credits;
                  gc_max_uses := maxUses; gc_uses := 0;
                  gc_per_user_limit := perUserLimit; gc_enabled := 1;
                  gc_expires_at := NoExpiry |}).
  destruct (inserted_card_lookup lastID card db Hunique Htaken) as (_ & _ & Hfound).
  set (db' := with_cards (insert lastID card) db) in *.
  assert (Hsame : gift_card_redemptions db' = gift_card_redemptions db) by reflexivity.
  set (w := {| w_db := db'; w_panel := panel |}).
  rewrite (redeem_accepted userId typed env w user) with (id := lastID) (card := card).
  - rewrite (redeem_commit_calm userId lastID _ env 3%nat w user);
      [reflexivity | auto | auto | auto | auto | exact Huser].
  - auto.
  - exact Huser.
  - exact Hfound.
  - unfold w; simpl. unfold getUserRedemptions in *. rewrite Hsame, Hrecords.
    replace (0 <? maxUses) with true by (symmetry; apply Z.ltb_lt; lia).
    replace (0 <? perUserLimit) with true by (symmetry; apply Z.ltb_lt; lia).
    reflexivity.
Qed.

End CardFacts.

Section CardChanges.
Import Database Async Dashboard Admin Conditions.
Context `{Js.Runtime}.

(** Setting columns of a card leaves its code and its uses. *)
Lemma set_fields_columns id data (cards : gmap Z GiftCard) i :
  gc_code <$> alter (set_fields data) id cards !! i = gc_code <$> cards !! i
  /\ gc_uses <$> alter (set_fields data) id cards !! i = gc_uses <$> cards !! i.
Proof.
  rewrite lookup_alter. case_decide; [| split; reflexivity].
  subst i. destruct (cards !! id); split; reflexivity.
Qed.

Lemma set_fields_codes_unique id data db :
  codes_unique db -> codes_unique (with_cards (alter (set_fields data) id) db).
Proof.
  intros Hunique i j c d Hc Hd Hcode. simpl in Hc, Hd.
  destruct (set_fields_columns id data (gift_cards db) i) as [Hi _].
  destruct (set_fields_columns id data (gift_cards db) j) as [Hj _].
  rewrite Hc in Hi. rewrite Hd in Hj.
  destruct (gift_cards db !! i) as [c0|] eqn:Hc0; [| discriminate].
  destruct (gift_cards db !! j) as [d0|] eqn:Hd0; [| discriminate].
  simpl in Hi, Hj. injection Hi as Hi. injection Hj as Hj.
  apply (Hunique i j c0 d0 Hc0 Hd0). congruence.
Qed.


Lemma toggle_card id enabled db card :
  codes_unique db -> gift_cards db !! id = Some card ->
  let db' := snd (toggle id enabled false db) in
  fst (toggle id enabled false db) = Done
  /\ codes_unique db'
  /\ users db' = users db
  /\ gift_cards db' !! id
     = Some {| gc_code := gc_code card; gc_credits := gc_credits card;
               gc_max_uses := gc_max_uses card; gc_uses := gc_uses card;
               gc_per_user_limit := gc_per_user_limit card;
               gc_enabled := (if enabled then 1 else 0);
               gc_expires_at := gc_expires_at card |}.
Proof.
  intros Hunique Hat. unfold toggle.
  set (data := {| d_credits := None; d_max_uses := None; d_per_user_limit := None;
                  d_enabled := Some (if enabled then 1 else 0);
                  d_expires_at := None |}).
  unfold updateGiftCard. cbn [fields pushed data d_credits d_max_uses
    d_per_user_limit d_enabled d_expires_at app]. cbn [fst snd].
  split; [reflexivity |].
  split; [exact (set_fields_codes_unique id data db Hunique) |]. split; [reflexivity |].
  simpl. rewrite lookup_alter_eq, Hat. reflexivity.
Qed.

(** X20: once the administrator has switched a card off, nobody can redeem
    it: whatever its uses, its expiry and the user, the route answers
    [CardDisabled] and changes nothing; switching a card off and on again
    that was enabled with 1 leaves the store as it was. *)
Theorem disabled_card_is_refused id db card userId code env panel user :
  codes_unique db ->
  gift_cards db !! id = Some card ->
  Js.toUpperCase code = gc_code card ->
  users db !! userId = Some user ->
  e_fault (env 0%nat) = false /\ e_fault (env 1%nat) = false /\ e_fault (env 2%nat) = false ->
  let off := {| w_db := snd (toggle id false false db); w_panel := panel |} in
  fst (toggle id false false db) = Done
  /\ redeem userId code env off
     = (RenderRedeem (Js.or_zero (u_credits user)) (Error CardDisabled), off)
  /\ (gc_enabled card = 1 -> snd (toggle id true false (w_db off)) = db).
Proof.
  intros Hunique Hat Hcode Huser Hreads off.
  destruct (toggle_card id false db card Hunique Hat) as (Hdone & Hunique' & Husers & Hat').
  split; [exact Hdone |]. split.
  - apply redeem_refused;
      [exact Hreads | unfold off; cbn [w_db]; rewrite Husers; exact Huser |].
    cbv zeta. rewrite Hcode.
    change (gc_code card) with
      (gc_code {| gc_code := gc_code card; gc_credits := gc_credits card;
                  gc_max_uses := gc_max_uses card; gc_uses := gc_uses card;
                  gc_per_user_limit := gc_per_user_limit card; gc_enabled := 0;
                  gc_expires_at := gc_expires_at card |}).
    unfold off; cbn [w_db].
    rewrite (getGiftCard_unique _ id _ Hunique' Hat'). reflexivity.
  - intros Henabled. unfold off; cbn [w_db].
    destruct db as [us cards reds plans servers].
    unfold toggle, updateGiftCard, with_cards; simpl. f_equal.
    rewrite alter_alter_eq. apply alter_id. intros c Hc. simpl in Hat.
    rewrite Hat in Hc. injection Hc as <-.
    destruct card; simpl in *. subst. reflexivity.
Qed.

(** X21: once the administrator has deleted a card, its code is reported as
    invalid to everybody, while the redemptions recorded for it, and the
    credits they gave, stay in the store. *)
Theorem deleted_card_is_invalid id db card userId code env panel user :
  codes_unique db ->
  gift_cards db !! id = Some card ->
  Js.toUpperCase code = gc_code card ->
  users db !! userId = Some user ->
  e_fault (env 0%nat) = false /\ e_fault (env 1%nat) = false /\ e_fault (env 2%nat) = false ->
  let gone := {| w_db := snd (delete_card id false db); w_panel := panel |} in
  fst (delete_card id false db) = Done
  /\ redeem userId code env gone
     = (RenderRedeem (Js.or_zero (u_credits user)) (Error InvalidCode), gone)
  /\ gift_card_redemptions (w_db gone) = gift_card_redemptions db
  /\ users (w_db gone) = users db.
Proof.
  intros Hunique Hat Hcode Huser Hreads gone.
  split; [reflexivity |]. split; [| split; reflexivity].
  apply redeem_refused; [exact Hreads | exact Huser |].
  cbv zeta. rewrite Hcode.
  assert (Hnone : getGiftCard (gc_code card) (w_db gone) = None).
  { apply getGiftCard_none. intros i c. unfold gone; simpl.
    rewrite lookup_delete. case_decide as Hi; [discriminate |].
    intros Hc Hsame. apply Hi. symmetry. eapply Hunique; eauto. }
  rewrite Hnone. reflexivity.
Qed.

End CardChanges.

Section PlanChanges.
Import Database Async Dashboard Admin Conditions.
Context `{Js.Runtime}.

(** X22: once the administrator has deleted a plan, every purchase of it is
    refused as [PlanUnavailable], with nothing written and nothing sent to
    the panel, while the instances bought on the plan stay recorded. *)
Theorem deleted_plan_is_unavailable id db userId server_name env panel user :
  users db !! userId = Some user ->
  Js.truthy_str (Some server_name) = true ->
  Js.is_nan (u_credits user) = false ->
  e_fault (env 0%nat) = false /\ e_fault (env 1%nat) = false /\ e_fault (env 2%nat) = false ->
  let gone := {| w_db := deletePlan id db; w_panel := panel |} in
  purchase userId (Some id) server_name env gone
  = (RedirectMsg instances "error" PlanUnavailable, gone)
  /\ user_servers (w_db gone) = user_servers db.
Proof.
  intros Huser Hname Hbalance Hreads gone. split; [| reflexivity].
  assert (Hnone : server_plans (w_db gone) !! id = None).
  { unfold gone; simpl. apply lookup_delete_eq. }
  rewrite (purchase_validation userId id server_name env gone user); auto.
  - rewrite Hnone. reflexivity.
  - intros plan. rewrite Hnone. discriminate.
Qed.

End PlanChanges.

(** ** The further properties at work *)

Section FurtherSituations.
Import Database Async Dashboard Admin Conditions Scenario Cases.

Lemma store_codes_unique : codes_unique store.
Proof.
  intros i j c d. unfold store; cbn [gift_cards].
  rewrite !lookup_insert. repeat case_decide; rewrite ?lookup_empty; try discriminate.
  congruence.
Qed.

Lemma store_has_no_redemption userId id : getUserRedemptions userId id store = 0.
Proof. reflexivity. Qed.

Lemma store_redemptions_within_limit : records_within_limit store.
Proof.
  intros userId id card. rewrite store_has_no_redemption.
  unfold store; cbn [gift_cards].
  rewrite lookup_insert. case_decide; [| rewrite lookup_empty; discriminate].
  intros [= <-]. simpl. lia.
Qed.

Lemma store_uses_match_records : uses_match_records store.
Proof.
  intros id card. unfold store; cbn [gift_cards].
  rewrite lookup_insert. case_decide; [| rewrite lookup_empty; discriminate].
  intros [= <-]. reflexivity.
Qed.


Lemma guards_are_nested_witness :
  Middleware.require2FA admin_session = Middleware.Next
  /\ Middleware.requireAuth admin_session = Middleware.Next.
Proof.
  destruct (guards_are_nested admin_session) as [Hadmin Hverified].
  split; [apply Hadmin; reflexivity | apply Hverified, Hadmin; reflexivity].
Defined.

Lemma redirects_are_admitted_witness :
  exists guard,
    Middleware.guard_of "/verify-2fa" = Some guard
    /\ guard half_session = Middleware.Next.
Proof.
  apply (redirects_are_admitted half_session "/verify-2fa").
  right; left. reflexivity.
Defined.

Lemma cache_entry_lifetime_witness :
  Pterodactyl._getCache cached_api 30000 12
  = (if 30000 - 10000 <? Pterodactyl.cacheTTL Pterodactyl.new
     then Some stale_listing else None)
  /\ Pterodactyl._getCache cached_api 30000 14
     = Pterodactyl._getCache Pterodactyl.new 30000 14.
Proof.
  destruct (cache_entry_lifetime Pterodactyl.new 10000 12 stale_listing 30000 14)
    as [Hserved Hother].
  split; [exact Hserved | apply Hother; discriminate].
Defined.

Lemma cache_holds_only_successes_witness :
  only_successes (listings three_calls Pterodactyl.new)
  /\ let result :=
       Pterodactyl.getUserServers (listings three_calls Pterodactyl.new)
         30000 30250 (Pterodactyl.RequestFailed "timeout") 12 in
     (result.2 = [] -> Pterodactyl.sr_success result.1.1 = true).
Proof.
  apply (cache_holds_only_successes three_calls Pterodactyl.new 30000 30250
           (Pterodactyl.RequestFailed "timeout") 12).
  intros key entry Hentry. vm_compute in Hentry. discriminate.
Defined.

Lemma listing_is_reused_witness :
  let first :=
    Pterodactyl.getUserServers Pterodactyl.new 10000 10250
      (Pterodactyl.Servers [fresh_server]) 12 in
  first.2 = [Pterodactyl.FetchUserServers 12]
  /\ Pterodactyl.getUserServers first.1.2 60000 60250 Pterodactyl.NoAttributes 12
     = (first.1.1, first.1.2, []).
Proof.
  apply (listing_is_reused Pterodactyl.new 10000 10250
           (Pterodactyl.Servers [fresh_server]) 12 60000 60250 Pterodactyl.NoAttributes).
  - reflexivity.
  - reflexivity.
  - reflexivity.
Defined.

Lemma listings_do_not_interfere_witness :
  let api' :=
    (Pterodactyl.getUserServers cached_api 20000 20250
       (Pterodactyl.Servers [fresh_server]) 14).1.2 in
  (Pterodactyl.getUserServers api' 30000 30250 Pterodactyl.NoAttributes 12).1.1
  = (Pterodactyl.getUserServers cached_api 30000 30250 Pterodactyl.NoAttributes 12).1.1
  /\ (Pterodactyl.getUserServers api' 30000 30250 Pterodactyl.NoAttributes 12).2
     = (Pterodactyl.getUserServers cached_api 30000 30250 Pterodactyl.NoAttributes 12).2.
Proof.
  apply (listings_do_not_interfere cached_api 30000 30250 Pterodactyl.NoAttributes 12
           20000 20250 (Pterodactyl.Servers [fresh_server]) 14).
  discriminate.
Defined.

Lemma decrement_undoes_increment_witness :
  (server_plans (decrementPlanStock 7 (incrementPlanStock 7 store)) !! 7
   = Some (if p_stock_used basic =? int64_max
           then set_stock_used (int64_max + 1) basic else basic)
   /\ (p_stock_used basic <> int64_max ->
       decrementPlanStock 7 (incrementPlanStock 7 store) = store)
   /\ forall i after,
        server_plans (decrementPlanStock 7 store) !! i = Some after ->
        exists before,
          server_plans store !! i = Some before
          /\ (0 <= p_stock_used before -> 0 <= p_stock_used after))
  /\ server_plans (decrementPlanStock 7 (incrementPlanStock 7 store_at_the_brim)) !! 7
     = Some (set_stock_used 9223372036854775808 basic).
Proof.
  split.
  - apply (decrement_undoes_increment 7 store basic); [reflexivity | simpl; lia].
  - destruct (decrement_undoes_increment 7 store_at_the_brim
                (set_stock_used int64_max basic)) as [Hstuck _];
      [reflexivity | simpl; unfold int64_max; lia |].
    rewrite Hstuck. reflexivity.
Defined.

(** The records are bounded, the credits are not: the card [WELCOME] may be
    redeemed once by a user.  The first request of Alice credits her and
    raises the uses, and the store rejects the record; her second request
    finds no record and credits her again. *)
Example unrecorded_redemption_is_repeated :
  let w := {| w_db := store_with_welcome; w_panel := [] |} in
  let w' := Effects.redeem_serially
              [(1, "welcome", failing_at 5); (1, "welcome", fun _ => calm)] w in
  gc_per_user_limit welcome = 1
  /\ u_credits <$> users (w_db w) !! 1 = Some 0%float
  /\ u_credits <$> users (w_db w') !! 1 = Some 10%float
  /\ gc_uses <$> gift_cards (w_db w') !! 6 = Some 2
  /\ getUserRedemptions 1 6 (w_db w') = 1.
Proof.
  cbv zeta. repeat split; vm_compute; reflexivity.
Qed.

(** The same for instances: Bob may hold one instance of the plan.  His
    first purchase is debited and gets a server on the panel, and the store
    rejects the instance record; his second purchase finds no record and
    gets a second server. *)
Example unrecorded_server_is_bought_again :
  let w' := Effects.purchase_serially
              [(2, Some 8, "bob-1", failing_at 6); (2, Some 8, "bob-2", fun _ => calm)]
              world_with_solo in
  p_user_limit solo = 1
  /\ getUserServerCount 2 8 (w_db w') = 1
  /\ w_panel w'
     = [Pterodactyl.CreateServer (serverData "bob-1" 12 solo)
          (Pterodactyl.Success fresh_server);
        Pterodactyl.CreateServer (serverData "bob-2" 12 solo)
          (Pterodactyl.Success fresh_server)]
  /\ u_credits <$> users (w_db w') !! 2 = Some 10%float.
Proof.
  cbv zeta. repeat split; vm_compute; reflexivity.
Qed.

Lemma serial_redemptions_keep_records_within_limit_witness :
  records_within_limit
    (w_db (Effects.redeem_serially
             [(1, "SAVE10", fun _ => calm); (1, "save10", failing_at 4)] world)).
Proof.
  apply (serial_redemptions_keep_records_within_limit
           [(1, "SAVE10", fun _ => calm); (1, "save10", failing_at 4)] world).
  exact store_redemptions_within_limit.
Defined.

Lemma serial_redemptions_keep_uses_matching_witness :
  uses_match_records
    (w_db (Effects.redeem_serially
             [(1, "SAVE10", fun _ => calm); (2, "save10", fun _ => calm)] world)).
Proof.
  apply (serial_redemptions_keep_uses_matching
           [(1, "SAVE10", fun _ => calm); (2, "save10", fun _ => calm)] world).
  - repeat constructor.
  - exact store_uses_match_records.
Defined.

Lemma unlinked_user_cannot_buy_witness :
  (let result := purchase 3 (Some 7) "carol-1" (fun _ => calm) world in
   w_db (snd result) = w_db world
   /\ fst result <> Purchased "carol-1"
   /\ (forall data answer,
         Pterodactyl.CreateServer data answer ∉ Effects.new_exchanges world (snd result))
   /\ (forall account,
         Pterodactyl.CreateUser (u_email carol) (Pterodactyl.Success account)
           ∈ Effects.new_exchanges world (snd result) ->
         fst result = PurchaseFailed))
  /\ (let w := {| w_db := updateUserCredits 3 6%float store; w_panel := [] |} in
      let result := purchase 3 (Some 7) "carol-1" (fun _ => calm) w in
      w_db (snd result) = w_db w
      /\ fst result <> Purchased "carol-1"
      /\ (forall data answer,
            Pterodactyl.CreateServer data answer ∉ Effects.new_exchanges w (snd result))
      /\ (forall account,
            Pterodactyl.CreateUser "carol@example.org" (Pterodactyl.Success account)
              ∈ Effects.new_exchanges w (snd result) ->
            fst result = PurchaseFailed)).
Proof.
  split.
  - apply (unlinked_user_cannot_buy 3 (Some 7) "carol-1" (fun _ => calm) world carol).
    + reflexivity.
    + reflexivity.
  - apply (unlinked_user_cannot_buy 3 (Some 7) "carol-1" (fun _ => calm)
             {| w_db := updateUserCredits 3 6%float store; w_panel := [] |}
             {| u_email := u_email carol; u_credits := 9%float;
                u_pterodactyl_id := None |}).
    + vm_compute; reflexivity.
    + reflexivity.
Defined.


Lemma purchase_commits_statement_by_statement_witness :
  let env := failing_at 4 in
  let faults := (e_fault (env 3%nat), e_fault (env 4%nat), e_fault (env 5%nat)) in
  let result := purchase 2 (Some 7) "bob-1" env world in
  Effects.new_exchanges world (snd result)
  = [Pterodactyl.CreateServer (serverData "bob-1" 12 basic)
       (Pterodactyl.Success fresh_server)]
  /\ w_db (snd result)
     = Effects.purchase_writes 2 7 "bob-1" basic fresh_server faults (w_db world)
  /\ fst result
     = (if Effects.all_accepted faults then Purchased "bob-1" else PurchaseFailed).
Proof.
  apply (purchase_commits_statement_by_statement 2 7 "bob-1" (failing_at 4) world bob
           basic 12 fresh_server).
  - repeat split; reflexivity.
  - reflexivity.
  - reflexivity.
  - reflexivity.
  - reflexivity.
  - reflexivity.
  - reflexivity.
  - reflexivity.
  - vm_compute; reflexivity.
  - reflexivity.
Defined.

Lemma created_card_is_found_witness :
  (getGiftCard "WELCOME" store = None
   /\ Js.is_nan 5%float = false
   /\ codes_unique store_with_welcome
   /\ getGiftCard "WELCOME" store_with_welcome = Some (6, welcome)
   /\ forall other, other <> "WELCOME" ->
        getGiftCard other store_with_welcome = getGiftCard other store)
  /\ (is_Some (getGiftCard "WELCOME" store) \/ Js.is_nan PrimFloat.nan = true)
  /\ (is_Some (getGiftCard "SAVE10" store) \/ Js.is_nan 5%float = true).
Proof.
  split; [| split].
  - apply (created_card_is_found 6 "WELCOME" 5%float 10 1 NoExpiry store).
    + exact store_codes_unique.
    + reflexivity.
  - apply (created_card_is_found 6 "WELCOME" PrimFloat.nan 10 1 NoExpiry store).
    + exact store_codes_unique.
    + reflexivity.
  - apply (created_card_is_found 6 "SAVE10" 5%float 10 1 NoExpiry store).
    + exact store_codes_unique.
    + reflexivity.
Defined.

Lemma created_card_can_be_redeemed_witness :
  fst (redeem 1 "welcome" (fun _ => calm)
         {| w_db := store_with_welcome; w_panel := [] |})
  = RenderRedeem (Js.or_zero (PrimFloat.add (u_credits alice) 5%float))
                 (Redeemed 5%float).
Proof.
  apply (created_card_can_be_redeemed 6 "welcome" 5%float 10 1 store store_with_welcome
           1 alice (fun _ => calm) []).
  - vm_compute; reflexivity.
  - exact store_codes_unique.
  - reflexivity.
  - reflexivity.
  - reflexivity.
  - reflexivity.
  - reflexivity.
  - reflexivity.
Defined.

Lemma disabled_card_is_refused_witness :
  let off := {| w_db := snd (toggle 5 false false store); w_panel := [] |} in
  fst (toggle 5 false false store) = Done
  /\ redeem 1 "save10" (fun _ => calm) off
     = (RenderRedeem (Js.or_zero (u_credits alice)) (Error CardDisabled), off)
  /\ (gc_enabled save10 = 1 -> snd (toggle 5 true false (w_db off)) = store).
Proof.
  apply (disabled_card_is_refused 5 store save10 1 "save10" (fun _ => calm) [] alice).
  - exact store_codes_unique.
  - reflexivity.
  - reflexivity.
  - reflexivity.
  - repeat split; reflexivity.
Defined.

Lemma deleted_card_is_invalid_witness :
  let gone := {| w_db := snd (delete_card 5 false store); w_panel := [] |} in
  fst (delete_card 5 false store) = Done
  /\ redeem 1 "save10" (fun _ => calm) gone
     = (RenderRedeem (Js.or_zero (u_credits alice)) (Error InvalidCode), gone)
  /\ gift_card_redemptions (w_db gone) = gift_card_redemptions store
  /\ users (w_db gone) = users store.
Proof.
  apply (deleted_card_is_invalid 5 store save10 1 "save10" (fun _ => calm) [] alice).
  - exact store_codes_unique.
  - reflexivity.
  - reflexivity.
  - reflexivity.
  - repeat split; reflexivity.
Defined.

Lemma deleted_plan_is_unavailable_witness :
  let gone := {| w_db := deletePlan 7 store; w_panel := [] |} in
  purchase 2 (Some 7) "bob-1" (fun _ => calm) gone
  = (RedirectMsg instances "error" PlanUnavailable, gone)
  /\ user_servers (w_db gone) = user_servers store.
Proof.
  apply (deleted_plan_is_unavailable 7 store 2 "bob-1" (fun _ => calm) [] bob).
  - reflexivity.
  - reflexivity.
  - reflexivity.
  - repeat split; reflexivity.
Defined.

End FurtherSituations.
